(** * Cursor history add-on: a shallow embedding of [cursortracker.py]

    The add-on keeps, for every scene of the host application, a bounded
    list of recorded 3D-cursor positions.  The host objects the Python code
    talks to ([bpy.context], [bpy.types.Scene], the scenes and their
    cursors, the list of update handlers) are gathered in one record,
    [Bpy]; every Python function becomes a computation in a small
    state-and-fault monad over that record.

    What is left out: the panel and list drawing code (pure rendering) and
    the [self.report] status messages, which do not touch the data.  The
    clock read by [datetime.now()] is an explicit argument [now]. *)

From Stdlib Require Import ZArith QArith Lia.
From stdpp Require Import base gmap strings list pretty.

Local Open Scope Z_scope.

(** ** Data model *)

(** A [mathutils.Vector] / [FloatVectorProperty(size=3)].  Coordinates are
    exact rationals here; the host stores them as floats. *)
Record Vec : Type := mkVec { vx : Q; vy : Q; vz : Q }.

Definition vec_of_Z (x y z : Z) : Vec := mkVec (inject_Z x) (inject_Z y) (inject_Z z).

(** [class CursorHistoryEntry(PropertyGroup)] *)
Record CursorHistoryEntry : Type := mkEntry {
  location : Vec;
  timestamp : string
}.

(** [class CursorHistoryProperties(PropertyGroup)].  [active_index] is an
    [IntProperty]; the code only ever stores values between -1 and 99 in
    it, far from the bounds of the host's machine integer. *)
Record CursorHistoryProperties : Type := mkProps {
  history_list : list CursorHistoryEntry;
  active_index : Z;
  is_recording : bool;
  last_cursor_pos : Vec
}.

(** The property defaults: [IntProperty(default=0)],
    [BoolProperty(default=False)], an empty collection, a zero vector. *)
Definition default_props : CursorHistoryProperties :=
  mkProps [] 0 false (vec_of_Z 0 0 0).

(** What the add-on sees of a scene: [scene.cursor.location] and
    [scene.cursor_history_props]. *)
Record Scene : Type := mkScene {
  cursor_location : Vec;
  cursor_history_props : CursorHistoryProperties
}.

Definition default_scene : Scene := mkScene (vec_of_Z 0 0 0) default_props.

#[global] Instance Scene_inhabited : Inhabited Scene := populate default_scene.

(** The classes of the module-level list [classes], in its order. *)
Inductive AddonClass : Type :=
  | CursorHistoryEntry_cls
  | CursorHistoryProperties_cls
  | CURSOR_UL_history_list
  | CURSOR_OT_start_recording
  | CURSOR_OT_stop_recording
  | CURSOR_OT_delete_entry
  | CURSOR_OT_clear_history
  | CURSOR_OT_jump_to_position
  | CURSOR_PT_history_panel.

#[global] Instance AddonClass_eq_dec : EqDecision AddonClass.
Proof. solve_decision. Defined.

Definition classes : list AddonClass :=
  [ CursorHistoryEntry_cls; CursorHistoryProperties_cls; CURSOR_UL_history_list;
    CURSOR_OT_start_recording; CURSOR_OT_stop_recording; CURSOR_OT_delete_entry;
    CURSOR_OT_clear_history; CURSOR_OT_jump_to_position; CURSOR_PT_history_panel ].

(** Entries of [bpy.app.handlers.depsgraph_update_post]: this add-on's
    handler, or a handler installed by somebody else. *)
Inductive Handler : Type :=
  | cursor_position_handler_fn
  | foreign_handler (id : nat).

#[global] Instance Handler_eq_dec : EqDecision Handler.
Proof. solve_decision. Defined.

(** The host state.  Scenes are addressed by name; a scene that was never
    written to is in its default state, as host properties are. *)
Record Bpy : Type := mkBpy {
  registered_classes : list AddonClass;
  Scene_cursor_history_props : bool;
  depsgraph_update_post : list Handler;
  scenes : gmap string Scene;
  context_scene : string
}.

Definition scene_of (s : string) (w : Bpy) : Scene := scenes w !!! s.

Definition set_scene (s : string) (sc : Scene) (w : Bpy) : Bpy :=
  mkBpy (registered_classes w) (Scene_cursor_history_props w)
        (depsgraph_update_post w) (<[s := sc]> (scenes w)) (context_scene w).

Definition props_of (s : string) (w : Bpy) : CursorHistoryProperties :=
  cursor_history_props (scene_of s w).

Definition set_props (s : string) (p : CursorHistoryProperties) (w : Bpy) : Bpy :=
  set_scene s (mkScene (cursor_location (scene_of s w)) p) w.

(** The store of the active scene. *)
Definition active_props (w : Bpy) : CursorHistoryProperties :=
  props_of (context_scene w) w.

(** ** Faults and the monad of host computations *)

Inductive Fault : Type := AttributeError | IndexError | ValueError | RuntimeError.

Inductive result (A : Type) : Type :=
  | Ok (a : A)
  | Raise (e : Fault).
Arguments Ok {A} a.
Arguments Raise {A} e.

Definition M (A : Type) : Type := Bpy -> result (A * Bpy).

Definition ret {A} (a : A) : M A := fun w => Ok (a, w).

Definition bind {A B} (m : M A) (k : A -> M B) : M B :=
  fun w => match m w with
           | Ok (a, w') => k a w'
           | Raise e => Raise e
           end.

Definition raise {A} (e : Fault) : M A := fun _ => Raise e.

Declare Scope py_scope.
Delimit Scope py_scope with py.
Notation "x <- c ;; k" := (bind c (fun x => k))
  (at level 100, c at next level, k at level 200, right associativity) : py_scope.
Notation "c ;; k" := (bind c (fun _ => k))
  (at level 100, k at level 200, right associativity) : py_scope.
Local Open Scope py_scope.

(** ** Host primitives *)

(** [bpy.context.scene] (also [context.scene] inside an operator). *)
Definition bpy_context_scene : M string := fun w => Ok (context_scene w, w).

(** [hasattr(scene, 'cursor_history_props')] *)
Definition hasattr_cursor_history_props (scene : string) : M bool :=
  fun w => Ok (Scene_cursor_history_props w, w).

(** [scene.cursor_history_props]: the attribute exists only while the
    pointer property is defined on [bpy.types.Scene].  The value is a
    reference to the scene's property group, represented by the scene's
    name; reads and writes through it cannot fail. *)
Definition get_cursor_history_props (scene : string) : M string :=
  fun w => if Scene_cursor_history_props w then Ok (scene, w) else Raise AttributeError.

Definition read_props (props : string) : M CursorHistoryProperties :=
  fun w => Ok (props_of props w, w).

Definition modify_props (props : string)
    (f : CursorHistoryProperties -> CursorHistoryProperties) : M unit :=
  fun w => Ok (tt, set_props props (f (props_of props w)) w).

Definition get_is_recording (props : string) : M bool :=
  p <- read_props props ;; ret (is_recording p).

Definition set_is_recording (props : string) (b : bool) : M unit :=
  modify_props props (fun p =>
    mkProps (history_list p) (active_index p) b (last_cursor_pos p)).

Definition get_last_cursor_pos (props : string) : M Vec :=
  p <- read_props props ;; ret (last_cursor_pos p).

Definition set_last_cursor_pos (props : string) (v : Vec) : M unit :=
  modify_props props (fun p =>
    mkProps (history_list p) (active_index p) (is_recording p) v).

Definition get_active_index (props : string) : M Z :=
  p <- read_props props ;; ret (active_index p).

Definition set_active_index (props : string) (i : Z) : M unit :=
  modify_props props (fun p =>
    mkProps (history_list p) i (is_recording p) (last_cursor_pos p)).

(** [scene.cursor.location] read (with [.copy()]) and written. *)
Definition get_cursor_location (scene : string) : M Vec :=
  fun w => Ok (cursor_location (scene_of scene w), w).

Definition set_cursor_location (scene : string) (v : Vec) : M unit :=
  fun w => Ok (tt, set_scene scene (mkScene v (cursor_history_props (scene_of scene w))) w).

(** *** The collection [history_list] *)

(** [len(props.history_list)] *)
Definition history_len (props : string) : M Z :=
  p <- read_props props ;; ret (Z.of_nat (length (history_list p))).

(** Truth value of [props.history_list]: non-empty. *)
Definition history_nonempty (props : string) : M bool :=
  n <- history_len props ;; ret (0 <? n).

(** [entry = props.history_list.add()] followed by the assignments to
    [entry.location] and [entry.timestamp]: a filled entry at the end. *)
Definition history_add (props : string) (e : CursorHistoryEntry) : M unit :=
  modify_props props (fun p =>
    mkProps (history_list p ++ [e]) (active_index p) (is_recording p) (last_cursor_pos p)).

(** The host's removal of the element at an index of a collection: inside
    the bounds the elements behind it move up by one; outside the bounds
    the host leaves the collection alone and raises nothing. *)
Definition remove_at (i : Z) (l : list CursorHistoryEntry) : list CursorHistoryEntry :=
  if (0 <=? i) && (i <? Z.of_nat (length l)) then delete (Z.to_nat i) l else l.
Arguments remove_at : simpl never.

(** [props.history_list.remove(i)] *)
Definition history_remove (props : string) (i : Z) : M unit :=
  modify_props props (fun p =>
    mkProps (remove_at i (history_list p)) (active_index p) (is_recording p)
            (last_cursor_pos p)).

(** [props.history_list.clear()] *)
Definition history_clear (props : string) : M unit :=
  modify_props props (fun p =>
    mkProps [] (active_index p) (is_recording p) (last_cursor_pos p)).

(** [props.history_list[i]]: a negative index counts from the end, and an
    index outside the collection raises [IndexError]. *)
Definition history_get (props : string) (i : Z) : M CursorHistoryEntry :=
  p <- read_props props ;;
  let n := Z.of_nat (length (history_list p)) in
  let j := if i <? 0 then i + n else i in
  if (0 <=? j) && (j <? n) then
    match history_list p !! Z.to_nat j with
    | Some e => ret e
    | None => raise IndexError
    end
  else raise IndexError.

(** ** [add_cursor_history_entry] *)

Definition max_entries : Z := 100.

Definition add_cursor_history_entry (now : string) (location : Vec) : M unit :=
  scene <- bpy_context_scene ;;
  props <- get_cursor_history_props scene ;;
  history_add props (mkEntry location now) ;;
  n <- history_len props ;;
  (if max_entries <? n then history_remove props 0 else ret tt) ;;
  n' <- history_len props ;;
  set_active_index props (n' - 1).

(** ** The operators *)

(** The value an operator's [execute] returns; the add-on only ever
    returns [{'FINISHED'}]. *)
Inductive OperatorReturn : Type := FINISHED | CANCELLED.

(** [CURSOR_OT_start_recording.execute] *)
Definition CURSOR_OT_start_recording_execute (now : string) : M OperatorReturn :=
  scene <- bpy_context_scene ;;
  props <- get_cursor_history_props scene ;;
  set_is_recording props true ;;
  current_pos <- get_cursor_location scene ;;
  set_last_cursor_pos props current_pos ;;
  add_cursor_history_entry now current_pos ;;
  ret FINISHED.

(** [CURSOR_OT_stop_recording.execute] *)
Definition CURSOR_OT_stop_recording_execute : M OperatorReturn :=
  scene <- bpy_context_scene ;;
  props <- get_cursor_history_props scene ;;
  set_is_recording props false ;;
  ret FINISHED.

(** [CURSOR_OT_delete_entry.execute] *)
Definition CURSOR_OT_delete_entry_execute : M OperatorReturn :=
  scene <- bpy_context_scene ;;
  props <- get_cursor_history_props scene ;;
  nonempty <- history_nonempty props ;;
  i <- get_active_index props ;;
  if nonempty && (0 <=? i) then
    history_remove props i ;;
    i' <- get_active_index props ;;
    n <- history_len props ;;
    (if n <=? i' then set_active_index props (n - 1) else ret tt) ;;
    ret FINISHED
  else ret FINISHED.

(** [CURSOR_OT_clear_history.execute] *)
Definition CURSOR_OT_clear_history_execute : M OperatorReturn :=
  scene <- bpy_context_scene ;;
  props <- get_cursor_history_props scene ;;
  history_clear props ;;
  props' <- get_cursor_history_props scene ;;
  set_active_index props' 0 ;;
  ret FINISHED.

(** [CURSOR_OT_jump_to_position.execute] *)
Definition CURSOR_OT_jump_to_position_execute : M OperatorReturn :=
  scene <- bpy_context_scene ;;
  props <- get_cursor_history_props scene ;;
  nonempty <- history_nonempty props ;;
  i <- get_active_index props ;;
  if nonempty && (0 <=? i) then
    entry <- history_get props i ;;
    was_recording <- get_is_recording props ;;
    set_is_recording props false ;;
    set_cursor_location scene (location entry) ;;
    set_last_cursor_pos props (location entry) ;;
    set_is_recording props was_recording ;;
    ret FINISHED
  else ret FINISHED.

(** ** The change detector *)

(** The exact-arithmetic reading of [(current_pos - last_pos).length > 0.001]:
    both sides are non-negative, so the lengths compare as their squares. *)
Definition vec_sub (a b : Vec) : Vec :=
  mkVec (vx a - vx b) (vy a - vy b) (vz a - vz b).

Definition length_squared (v : Vec) : Q :=
  (vx v * vx v + vy v * vy v + vz v * vz v)%Q.

Definition tolerance : Q := Qmake 1 1000.

Definition exceeds_exact (current_pos last_pos : Vec) : bool :=
  negb (Qle_bool (length_squared (vec_sub current_pos last_pos)) (tolerance * tolerance)).

Section Detector.

(** [exceeds current_pos last_pos] is the outcome of the host's
    floating-point test [(current_pos - last_pos).length > 0.001].  The
    handler is embedded for an arbitrary such test; [exceeds_exact] is
    the instance used on concrete inputs. *)
Variable exceeds : Vec -> Vec -> bool.

(** [cursor_position_handler(scene, depsgraph=None)] *)
Definition cursor_position_handler (now : string) (scene : string) : M unit :=
  has <- hasattr_cursor_history_props scene ;;
  if negb has then ret tt else
  props <- get_cursor_history_props scene ;;
  recording <- get_is_recording props ;;
  if negb recording then ret tt else
  current_pos <- get_cursor_location scene ;;
  last_pos <- get_last_cursor_pos props ;;
  if exceeds current_pos last_pos then
    add_cursor_history_entry now current_pos ;;
    set_last_cursor_pos props current_pos
  else ret tt.

(** The host moves the cursor of a scene and then notifies the handlers
    of that scene's update, once per element of [moves]. *)
Fixpoint scene_updates (moves : list (string * Vec * string)) : M unit :=
  match moves with
  | [] => ret tt
  | (scene, pos, now) :: rest =>
      set_cursor_location scene pos ;;
      cursor_position_handler now scene ;;
      scene_updates rest
  end.

End Detector.

(** ** Registration *)

(** [bpy.utils.register_class]: the host refuses a class that is already
    registered. *)
Definition register_class (cls : AddonClass) : M unit :=
  fun w => if decide (cls ∈ registered_classes w) then Raise ValueError
           else Ok (tt, mkBpy (cls :: registered_classes w) (Scene_cursor_history_props w)
                              (depsgraph_update_post w) (scenes w) (context_scene w)).

(** [bpy.utils.unregister_class]: the host refuses a class that is not
    registered. *)
Definition unregister_class (cls : AddonClass) : M unit :=
  fun w => if decide (cls ∈ registered_classes w)
           then Ok (tt, mkBpy (filter (fun c => c ≠ cls) (registered_classes w))
                              (Scene_cursor_history_props w)
                              (depsgraph_update_post w) (scenes w) (context_scene w))
           else Raise RuntimeError.

(** [for x in l: f(x)] *)
Fixpoint for_each {A} (f : A -> M unit) (l : list A) : M unit :=
  match l with
  | [] => ret tt
  | x :: rest => f x ;; for_each f rest
  end.

(** [bpy.types.Scene.cursor_history_props = PointerProperty(...)] *)
Definition define_Scene_cursor_history_props : M unit :=
  fun w => Ok (tt, mkBpy (registered_classes w) true
                         (depsgraph_update_post w) (scenes w) (context_scene w)).

(** [del bpy.types.Scene.cursor_history_props]: deleting an attribute that
    does not exist raises [AttributeError].  The data kept in the scenes is
    only made unreachable. *)
Definition del_Scene_cursor_history_props : M unit :=
  fun w => if Scene_cursor_history_props w
           then Ok (tt, mkBpy (registered_classes w) false
                              (depsgraph_update_post w) (scenes w) (context_scene w))
           else Raise AttributeError.

Definition get_depsgraph_update_post : M (list Handler) :=
  fun w => Ok (depsgraph_update_post w, w).

Definition set_depsgraph_update_post (hs : list Handler) : M unit :=
  fun w => Ok (tt, mkBpy (registered_classes w) (Scene_cursor_history_props w)
                         hs (scenes w) (context_scene w)).

(** [list.remove(x)]: drops the first occurrence of [x]. *)
Fixpoint list_remove_first (x : Handler) (l : list Handler) : list Handler :=
  match l with
  | [] => []
  | y :: rest => if decide (y = x) then rest else y :: list_remove_first x rest
  end.

(** [register()] *)
Definition register : M unit :=
  for_each register_class classes ;;
  define_Scene_cursor_history_props ;;
  hs <- get_depsgraph_update_post ;;
  if decide (cursor_position_handler_fn ∈ hs) then ret tt
  else set_depsgraph_update_post (hs ++ [cursor_position_handler_fn]).

(** [unregister()] *)
Definition unregister : M unit :=
  hs <- get_depsgraph_update_post ;;
  (if decide (cursor_position_handler_fn ∈ hs)
   then set_depsgraph_update_post (list_remove_first cursor_position_handler_fn hs)
   else ret tt) ;;
  del_Scene_cursor_history_props ;;
  for_each unregister_class (rev classes).

(** ** Commands, host events and reachable states *)

(** The operations on the store of the active scene. *)
Inductive Command : Type :=
  | Append (position : Vec) (now : string)
  | DeleteSelected
  | ClearAll
  | StartRecording (now : string)
  | StopRecording
  | JumpToSelected.

Definition run_command (c : Command) : M unit :=
  match c with
  | Append position now => add_cursor_history_entry now position
  | DeleteSelected => _ <- CURSOR_OT_delete_entry_execute ;; ret tt
  | ClearAll => _ <- CURSOR_OT_clear_history_execute ;; ret tt
  | StartRecording now => _ <- CURSOR_OT_start_recording_execute now ;; ret tt
  | StopRecording => _ <- CURSOR_OT_stop_recording_execute ;; ret tt
  | JumpToSelected => _ <- CURSOR_OT_jump_to_position_execute ;; ret tt
  end.

(** What can happen to the host between two commands: the user runs a
    command, moves the cursor of a scene, makes another scene the active
    one, or the host delivers a scene update to the handler. *)
Inductive Event : Type :=
  | UserCommand (c : Command)
  | CursorMoved (scene : string) (position : Vec)
  | SceneSwitched (scene : string)
  | SceneUpdate (scene : string) (now : string).

Definition switch_scene (scene : string) : M unit :=
  fun w => Ok (tt, mkBpy (registered_classes w) (Scene_cursor_history_props w)
                         (depsgraph_update_post w) (scenes w) scene).

Definition run_event (exceeds : Vec -> Vec -> bool) (ev : Event) : M unit :=
  match ev with
  | UserCommand c => run_command c
  | CursorMoved scene position => set_cursor_location scene position
  | SceneSwitched scene => switch_scene scene
  | SceneUpdate scene now => cursor_position_handler exceeds now scene
  end.

(** The add-on is loaded and every scene's store has its default value. *)
Definition initial (w : Bpy) : Prop :=
  Scene_cursor_history_props w = true /\ forall s, props_of s w = default_props.

Inductive reachable (exceeds : Vec -> Vec -> bool) : Bpy -> Prop :=
  | reachable_initial w : initial w -> reachable exceeds w
  | reachable_step w ev w' :
      reachable exceeds w -> run_event exceeds ev w = Ok (tt, w') -> reachable exceeds w'.

(** The invariant of one store. *)
Definition store_ok (p : CursorHistoryProperties) : Prop :=
  Z.of_nat (length (history_list p)) <= 100 /\
  (history_list p <> [] -> 0 <= active_index p < Z.of_nat (length (history_list p))).

(** ** Net effects on a store *)

(** The guard [props.history_list and props.active_index >= 0]. *)
Definition selection_guard (p : CursorHistoryProperties) : bool :=
  (0 <? Z.of_nat (length (history_list p))) && (0 <=? active_index p).

(** The store after [add_cursor_history_entry] has added [e]. *)
Definition appended (e : CursorHistoryEntry) (p : CursorHistoryProperties)
    : CursorHistoryProperties :=
  let l := history_list p ++ [e] in
  let l' := if max_entries <? Z.of_nat (length l) then remove_at 0 l else l in
  mkProps l' (Z.of_nat (length l') - 1) (is_recording p) (last_cursor_pos p).

(** The store after the guarded branch of [CURSOR_OT_delete_entry.execute]. *)
Definition deleted (p : CursorHistoryProperties) : CursorHistoryProperties :=
  let l' := remove_at (active_index p) (history_list p) in
  let n := Z.of_nat (length l') in
  mkProps l' (if n <=? active_index p then n - 1 else active_index p)
          (is_recording p) (last_cursor_pos p).

(** ** Concrete host states *)

(** The host before the add-on is loaded. *)
Definition fresh_host : Bpy := mkBpy [] false [] ∅ "Scene".

(** The host with the add-on loaded, given scenes and an active scene. *)
Definition loaded_host (scs : gmap string Scene) (active : string) : Bpy :=
  mkBpy (rev classes) true [cursor_position_handler_fn] scs active.

(** Two scenes: the active scene ["A"] is untouched; scene ["B"] is
    recording, was last seen at the origin and has its cursor at (1,0,0). *)
Definition two_scenes : Bpy :=
  loaded_host
    (<["B" := mkScene (vec_of_Z 1 0 0) (mkProps [] 0 true (vec_of_Z 0 0 0))]>
       (<["A" := default_scene]> ∅))
    "A".

(** One scene holding the entries (1,0,0) and (2,0,0), the first one
    selected, recording enabled, the cursor elsewhere. *)
Definition jump_scenario : Bpy :=
  loaded_host
    (<["Scene" := mkScene (vec_of_Z 5 5 5)
         (mkProps [mkEntry (vec_of_Z 1 0 0) "10:00:00"; mkEntry (vec_of_Z 2 0 0) "10:00:05"]
                  0 true (vec_of_Z 2 0 0))]> ∅)
    "Scene".

(** One scene with an empty store and the cursor at (3,3,3). *)
Definition start_scenario : Bpy :=
  loaded_host (<["Scene" := mkScene (vec_of_Z 3 3 3) default_props]> ∅) "Scene".

(** The state of [start_scenario] after recording was started at 10:00:00. *)
Definition started_scenario : Bpy :=
  loaded_host
    (<["Scene" := mkScene (vec_of_Z 3 3 3)
         (mkProps [mkEntry (vec_of_Z 3 3 3) "10:00:00"] 0 true (vec_of_Z 3 3 3))]> ∅)
    "Scene".

(** One scene holding two entries whose selection points past the end. *)
Definition stale_selection : Bpy :=
  loaded_host
    (<["Scene" := mkScene (vec_of_Z 0 0 0)
         (mkProps [mkEntry (vec_of_Z 1 0 0) "10:00:00"; mkEntry (vec_of_Z 2 0 0) "10:00:05"]
                  5 false (vec_of_Z 2 0 0))]> ∅)
    "Scene".

(** One scene holding three entries, the middle one selected. *)
Definition three_entries : Bpy :=
  loaded_host
    (<["Scene" := mkScene (vec_of_Z 0 0 0)
         (mkProps [mkEntry (vec_of_Z 1 0 0) "10:00:00"; mkEntry (vec_of_Z 2 0 0) "10:00:05";
                   mkEntry (vec_of_Z 3 0 0) "10:00:09"]
                  1 false (vec_of_Z 3 0 0))]> ∅)
    "Scene".

(** ** The panel *)

(** What the calls on a [layout] build: labels, operator buttons,
    separators, the list template, and rows and columns holding further
    elements. *)
#[local] Set Warnings "-register-all".
Inductive Widget : Type :=
  | Label (text : string) (icon : option string)
  | OperatorButton (idname : string) (text : option string) (icon : string)
  | Separator
  | TemplateList (listtype_name list_id : string) (dataptr : string) (propname : string)
                 (active_dataptr : string) (active_propname : string) (rows : nat)
  | Row (align : bool) (children : list Widget)
  | Column (align : bool) (children : list Widget).
#[local] Set Warnings "register-all".

(** The [bl_idname]s of the operator buttons of a layout, in drawing order. *)
Fixpoint widget_operators (x : Widget) : list string :=
  match x with
  | OperatorButton idname _ _ => [idname]
  | Row _ children | Column _ children => flat_map widget_operators children
  | _ => []
  end.

(** The [execute] of the operator class that declares a [bl_idname]. *)
Definition operator_of_idname (now : string) (idname : string) : option (M OperatorReturn) :=
  if decide (idname = "cursor.start_recording")
  then Some (CURSOR_OT_start_recording_execute now)
  else if decide (idname = "cursor.stop_recording")
  then Some CURSOR_OT_stop_recording_execute
  else if decide (idname = "cursor.delete_entry")
  then Some CURSOR_OT_delete_entry_execute
  else if decide (idname = "cursor.clear_history")
  then Some CURSOR_OT_clear_history_execute
  else if decide (idname = "cursor.jump_to_position")
  then Some CURSOR_OT_jump_to_position_execute
  else None.

Section Panel.

(** [format_3f x] is the text of [f"{x:.3f}"] for a coordinate [x], which
    the host computes on its floats. *)
Variable format_3f : Q -> string.

(** [CURSOR_PT_history_panel.draw]: the children of [self.layout]. *)
Definition CURSOR_PT_history_panel_draw : M (list Widget) :=
  scene <- bpy_context_scene ;;
  props <- get_cursor_history_props scene ;;
  recording <- get_is_recording props ;;
  cursor_pos <- get_cursor_location scene ;;
  n <- history_len props ;;
  nonempty <- history_nonempty props ;;
  ret [ Row true
          (if recording
           then [OperatorButton "cursor.stop_recording" None "PAUSE";
                 Label "Recording..." (Some "REC")]
           else [OperatorButton "cursor.start_recording" None "PLAY";
                 Label "Not Recording" None]);
        Separator;
        Column true
          [Label "Current Position:" None;
           Row true [Label ("X: " +:+ format_3f (vx cursor_pos)) None;
                     Label ("Y: " +:+ format_3f (vy cursor_pos)) None;
                     Label ("Z: " +:+ format_3f (vz cursor_pos)) None]];
        Separator;
        Column false
          (Label ("History (" +:+ pretty n +:+ " entries):") None ::
           (if nonempty
            then [TemplateList "CURSOR_UL_history_list" "" props "history_list"
                               props "active_index" 5;
                  Row true [OperatorButton "cursor.jump_to_position" (Some "Go To") "CURSOR";
                            OperatorButton "cursor.delete_entry" (Some "Delete") "X"];
                  OperatorButton "cursor.clear_history" (Some "Clear All") "TRASH"]
            else [Label "No history entries" None])) ].

End Panel.

(** ** Drivers *)

(** One call of [add_cursor_history_entry] per element of [es], in order. *)
Definition record_all (es : list (Vec * string)) : M unit :=
  for_each (fun x => add_cursor_history_entry (snd x) (fst x)) es.

(** The user invokes the same operator [n] times in a row. *)
Fixpoint repeat_operator (n : nat) (op : M OperatorReturn) : M unit :=
  match n with
  | O => ret tt
  | S n' => op ;; repeat_operator n' op
  end.

(** [started_scenario] after the user has moved the cursor to (4,3,3). *)
Definition moved_scenario : Bpy :=
  loaded_host
    (<["Scene" := mkScene (vec_of_Z 4 3 3)
         (mkProps [mkEntry (vec_of_Z 3 3 3) "10:00:00"] 0 true (vec_of_Z 3 3 3))]> ∅)
    "Scene".

(** ** Single-precision cursor positions *)




(** ** Basic facts about the host state *)

Lemma scene_of_set_scene_eq s sc w : scene_of s (set_scene s sc w) = sc.
Proof. unfold scene_of, set_scene; simpl. apply lookup_total_insert_eq. Qed.

Lemma scene_of_set_scene_ne s s' sc w :
  s ≠ s' -> scene_of s' (set_scene s sc w) = scene_of s' w.
Proof. intros H. unfold scene_of, set_scene; simpl. by apply lookup_total_insert_ne. Qed.

Lemma set_scene_set_scene s a b w : set_scene s a (set_scene s b w) = set_scene s a w.
Proof. unfold set_scene; simpl. by rewrite insert_insert_eq. Qed.

Lemma props_of_set_props_eq s p w : props_of s (set_props s p w) = p.
Proof. unfold props_of, set_props. by rewrite scene_of_set_scene_eq. Qed.

Lemma props_of_set_props_ne s s' p w :
  s ≠ s' -> props_of s' (set_props s p w) = props_of s' w.
Proof. intros H. unfold props_of, set_props. by rewrite scene_of_set_scene_ne. Qed.

Lemma scene_of_set_props_ne s s' p w :
  s ≠ s' -> scene_of s' (set_props s p w) = scene_of s' w.
Proof. intros H. unfold set_props. by rewrite scene_of_set_scene_ne. Qed.

Lemma cursor_of_set_props s s' p w :
  cursor_location (scene_of s' (set_props s p w)) = cursor_location (scene_of s' w).
Proof.
  unfold set_props. destruct (decide (s = s')) as [->|Hne].
  - by rewrite scene_of_set_scene_eq.
  - by rewrite scene_of_set_scene_ne.
Qed.

Lemma set_props_set_props s p q w : set_props s p (set_props s q w) = set_props s p w.
Proof. unfold set_props. by rewrite scene_of_set_scene_eq, set_scene_set_scene. Qed.

(** Unfold the primitives of a computation and run it symbolically. *)
Ltac run_py :=
  repeat match goal with
         | H : Scene_cursor_history_props _ = _ |- _ => rewrite H
         | _ => progress (unfold bind, ret, raise, bpy_context_scene,
                      hasattr_cursor_history_props, switch_scene,
                      get_cursor_history_props, read_props, modify_props,
                      get_is_recording, set_is_recording, get_last_cursor_pos,
                      set_last_cursor_pos, get_active_index, set_active_index,
                      get_cursor_location, set_cursor_location, history_len,
                      history_nonempty, history_add, history_remove, history_clear,
                      history_get, set_props, props_of)
         | _ => progress cbn
         | _ => rewrite scene_of_set_scene_eq
         | _ => rewrite set_scene_set_scene
         end.

(** *** Lists *)

Lemma remove_at_in_range i (l : list CursorHistoryEntry) :
  0 <= i < Z.of_nat (length l) ->
  remove_at i l = take (Z.to_nat i) l ++ drop (S (Z.to_nat i)) l.
Proof.
  intros H. unfold remove_at.
  replace ((0 <=? i) && (i <? Z.of_nat (length l))) with true
    by (symmetry; apply andb_true_iff; split; [apply Z.leb_le | apply Z.ltb_lt]; lia).
  apply delete_take_drop.
Qed.

Lemma remove_at_out_of_range i (l : list CursorHistoryEntry) :
  Z.of_nat (length l) <= i -> remove_at i l = l.
Proof.
  intros H. unfold remove_at.
  replace (i <? Z.of_nat (length l)) with false by (symmetry; apply Z.ltb_ge; lia).
  by rewrite andb_false_r.
Qed.

Lemma length_remove_at i (l : list CursorHistoryEntry) :
  0 <= i < Z.of_nat (length l) ->
  Z.of_nat (length (remove_at i l)) = Z.of_nat (length l) - 1.
Proof.
  intros H. unfold remove_at.
  replace ((0 <=? i) && (i <? Z.of_nat (length l))) with true
    by (symmetry; apply andb_true_iff; split; [apply Z.leb_le | apply Z.ltb_lt]; lia).
  rewrite length_delete by (apply lookup_lt_is_Some; lia). lia.
Qed.

(** The entries after an append: the oldest one goes when the list was full. *)
Lemma appended_history e p :
  history_list (appended e p) =
  (if 100 <=? Z.of_nat (length (history_list p)) then drop 1 (history_list p)
   else history_list p) ++ [e].
Proof.
  unfold appended, max_entries; cbn. rewrite length_app; cbn.
  destruct (100 <=? Z.of_nat (length (history_list p))) eqn:E.
  - apply Z.leb_le in E.
    replace (100 <? Z.of_nat (length (history_list p) + 1)) with true
      by (symmetry; apply Z.ltb_lt; lia).
    destruct (history_list p) as [|x l]; [cbn in E; lia|].
    reflexivity.
  - apply Z.leb_gt in E.
    replace (100 <? Z.of_nat (length (history_list p) + 1)) with false
      by (symmetry; apply Z.ltb_ge; lia).
    reflexivity.
Qed.

Lemma appended_active e p :
  active_index (appended e p) = Z.of_nat (length (history_list (appended e p))) - 1.
Proof. reflexivity. Qed.

Lemma appended_length e p :
  Z.of_nat (length (history_list (appended e p))) =
  if 100 <=? Z.of_nat (length (history_list p)) then Z.of_nat (length (history_list p))
  else Z.of_nat (length (history_list p)) + 1.
Proof.
  rewrite appended_history. rewrite length_app; cbn.
  destruct (100 <=? _) eqn:E.
  - apply Z.leb_le in E. rewrite length_drop. lia.
  - lia.
Qed.

(** ** What each function computes *)

Lemma add_cursor_history_entry_run now loc w :
  Scene_cursor_history_props w = true ->
  add_cursor_history_entry now loc w =
  Ok (tt, set_props (context_scene w)
            (appended (mkEntry loc now) (props_of (context_scene w) w)) w).
Proof.
  intros H. unfold add_cursor_history_entry. run_py.
  destruct (max_entries <? _) eqn:E; run_py; unfold appended; cbn; rewrite E; reflexivity.
Qed.

Lemma start_recording_run now w :
  Scene_cursor_history_props w = true ->
  CURSOR_OT_start_recording_execute now w =
  Ok (FINISHED,
      set_props (context_scene w)
        (appended (mkEntry (cursor_location (scene_of (context_scene w) w)) now)
           (mkProps (history_list (props_of (context_scene w) w))
                    (active_index (props_of (context_scene w) w))
                    true
                    (cursor_location (scene_of (context_scene w) w)))) w).
Proof.
  intros H. unfold CURSOR_OT_start_recording_execute, add_cursor_history_entry. run_py.
  destruct (max_entries <? _) eqn:E; run_py; unfold appended; cbn; rewrite E; reflexivity.
Qed.

Lemma stop_recording_run w :
  Scene_cursor_history_props w = true ->
  CURSOR_OT_stop_recording_execute w =
  Ok (FINISHED,
      set_props (context_scene w)
        (mkProps (history_list (props_of (context_scene w) w))
                 (active_index (props_of (context_scene w) w))
                 false
                 (last_cursor_pos (props_of (context_scene w) w))) w).
Proof. intros H. unfold CURSOR_OT_stop_recording_execute. run_py. reflexivity. Qed.

Lemma clear_history_run w :
  Scene_cursor_history_props w = true ->
  CURSOR_OT_clear_history_execute w =
  Ok (FINISHED,
      set_props (context_scene w)
        (mkProps [] 0 (is_recording (props_of (context_scene w) w))
                 (last_cursor_pos (props_of (context_scene w) w))) w).
Proof. intros H. unfold CURSOR_OT_clear_history_execute. run_py. reflexivity. Qed.

Lemma delete_entry_run_skip w :
  Scene_cursor_history_props w = true ->
  selection_guard (props_of (context_scene w) w) = false ->
  CURSOR_OT_delete_entry_execute w = Ok (FINISHED, w).
Proof.
  intros H G. unfold CURSOR_OT_delete_entry_execute. unfold selection_guard in G. run_py.
  unfold props_of in G. rewrite G. reflexivity.
Qed.

Lemma delete_entry_run_guarded w :
  Scene_cursor_history_props w = true ->
  selection_guard (props_of (context_scene w) w) = true ->
  CURSOR_OT_delete_entry_execute w =
  Ok (FINISHED, set_props (context_scene w) (deleted (props_of (context_scene w) w)) w).
Proof.
  intros H G. unfold CURSOR_OT_delete_entry_execute. unfold selection_guard in G. run_py.
  unfold props_of in G. rewrite G. run_py.
  destruct (Z.of_nat _ <=? _) eqn:E; run_py; unfold deleted; cbn; rewrite E; reflexivity.
Qed.

Lemma jump_to_position_run_skip w :
  Scene_cursor_history_props w = true ->
  selection_guard (props_of (context_scene w) w) = false ->
  CURSOR_OT_jump_to_position_execute w = Ok (FINISHED, w).
Proof.
  intros H G. unfold CURSOR_OT_jump_to_position_execute. unfold selection_guard in G. run_py.
  unfold props_of in G. rewrite G. reflexivity.
Qed.

Lemma jump_to_position_run_guarded w e :
  Scene_cursor_history_props w = true ->
  0 <= active_index (props_of (context_scene w) w) ->
  history_list (props_of (context_scene w) w)
    !! Z.to_nat (active_index (props_of (context_scene w) w)) = Some e ->
  CURSOR_OT_jump_to_position_execute w =
  Ok (FINISHED,
      set_scene (context_scene w)
        (mkScene (location e)
           (mkProps (history_list (props_of (context_scene w) w))
                    (active_index (props_of (context_scene w) w))
                    (is_recording (props_of (context_scene w) w))
                    (location e))) w).
Proof.
  intros H Hi He. pose proof (lookup_lt_Some _ _ _ He) as Hlt.
  unfold CURSOR_OT_jump_to_position_execute. unfold props_of in *. run_py.
  replace (0 <? Z.of_nat _) with true by (symmetry; apply Z.ltb_lt; lia).
  replace (0 <=? active_index _) with true by (symmetry; apply Z.leb_le; lia).
  run_py.
  replace (active_index _ <? 0) with false by (symmetry; apply Z.ltb_ge; lia).
  replace (0 <=? active_index _) with true by (symmetry; apply Z.leb_le; lia).
  replace (active_index _ <? Z.of_nat _) with true by (symmetry; apply Z.ltb_lt; lia).
  run_py. rewrite He. run_py. reflexivity.
Qed.

(** With a selection past the end, the lookup of the entry faults. *)
Lemma jump_to_position_run_stale w :
  Scene_cursor_history_props w = true ->
  history_list (props_of (context_scene w) w) <> [] ->
  Z.of_nat (length (history_list (props_of (context_scene w) w)))
    <= active_index (props_of (context_scene w) w) ->
  CURSOR_OT_jump_to_position_execute w = Raise IndexError.
Proof.
  intros H Hne Hge.
  assert (0 < Z.of_nat (length (history_list (props_of (context_scene w) w)))) as Hpos.
  { destruct (history_list _); [done | cbn; lia]. }
  unfold CURSOR_OT_jump_to_position_execute. unfold props_of in *. run_py.
  replace (0 <? Z.of_nat _) with true by (symmetry; apply Z.ltb_lt; lia).
  replace (0 <=? active_index _) with true by (symmetry; apply Z.leb_le; lia).
  run_py.
  replace (active_index _ <? 0) with false by (symmetry; apply Z.ltb_ge; lia).
  replace (active_index _ <? Z.of_nat _) with false by (symmetry; apply Z.ltb_ge; lia).
  rewrite andb_false_r. reflexivity.
Qed.

Section DetectorFacts.

Variable exceeds : Vec -> Vec -> bool.

Lemma handler_run_unloaded now s w :
  Scene_cursor_history_props w = false ->
  cursor_position_handler exceeds now s w = Ok (tt, w).
Proof. intros H. unfold cursor_position_handler. run_py. reflexivity. Qed.

Lemma handler_run_not_recording now s w :
  is_recording (props_of s w) = false ->
  cursor_position_handler exceeds now s w = Ok (tt, w).
Proof.
  intros H. destruct (Scene_cursor_history_props w) eqn:F.
  - unfold cursor_position_handler. unfold props_of in H. run_py. rewrite H. reflexivity.
  - by apply handler_run_unloaded.
Qed.

Lemma handler_run_within_tolerance now s w :
  exceeds (cursor_location (scene_of s w)) (last_cursor_pos (props_of s w)) = false ->
  cursor_position_handler exceeds now s w = Ok (tt, w).
Proof.
  intros H. destruct (Scene_cursor_history_props w) eqn:F;
    [|by apply handler_run_unloaded].
  destruct (is_recording (props_of s w)) eqn:R;
    [|by apply handler_run_not_recording].
  unfold cursor_position_handler. unfold props_of in *. run_py.
  rewrite R. run_py. rewrite H. reflexivity.
Qed.

(** The recording branch: the entry goes to the store of the active
    scene, the last position to the store of the updated scene. *)
Lemma handler_run_moved now s w :
  Scene_cursor_history_props w = true ->
  is_recording (props_of s w) = true ->
  exceeds (cursor_location (scene_of s w)) (last_cursor_pos (props_of s w)) = true ->
  cursor_position_handler exceeds now s w =
  Ok (tt,
      let w1 := set_props (context_scene w)
                  (appended (mkEntry (cursor_location (scene_of s w)) now)
                     (props_of (context_scene w) w)) w in
      set_props s
        (mkProps (history_list (props_of s w1)) (active_index (props_of s w1))
                 (is_recording (props_of s w1)) (cursor_location (scene_of s w))) w1).
Proof.
  intros F R H. unfold props_of in R, H.
  unfold cursor_position_handler, add_cursor_history_entry. run_py.
  rewrite R. run_py. rewrite H. run_py.
  destruct (max_entries <? _) eqn:E; run_py; unfold appended; cbn; rewrite E; reflexivity.
Qed.

End DetectorFacts.

Lemma lookup_last_appended (l : list CursorHistoryEntry) e :
  (l ++ [e]) !! Z.to_nat (Z.of_nat (length (l ++ [e])) - 1) = Some e.
Proof.
  rewrite length_app; cbn. apply list_lookup_middle. lia.
Qed.

(** ** The history store *)

(** C4: for every prior state of the active scene's store,
    [add_cursor_history_entry] succeeds; the new entry is the last one; the
    entry at index 0 is dropped exactly when the list already held 100
    entries or more, the others keeping their order; [active_index] is the
    index of the new entry; a list within the bound stays within it; the
    recording flag, the last position, the cursor and the other scenes are
    left alone. *)
Theorem append_adds_last_and_evicts_oldest (now : string) (position : Vec) (w : Bpy) :
  Scene_cursor_history_props w = true ->
  exists w',
    add_cursor_history_entry now position w = Ok (tt, w') /\
    history_list (props_of (context_scene w) w') =
      (if 100 <=? Z.of_nat (length (history_list (active_props w)))
       then drop 1 (history_list (active_props w))
       else history_list (active_props w)) ++ [mkEntry position now] /\
    active_index (props_of (context_scene w) w') =
      Z.of_nat (length (history_list (props_of (context_scene w) w'))) - 1 /\
    history_list (props_of (context_scene w) w')
      !! Z.to_nat (active_index (props_of (context_scene w) w'))
      = Some (mkEntry position now) /\
    (Z.of_nat (length (history_list (active_props w))) <= 100 ->
     Z.of_nat (length (history_list (props_of (context_scene w) w'))) <= 100) /\
    is_recording (props_of (context_scene w) w') = is_recording (active_props w) /\
    last_cursor_pos (props_of (context_scene w) w') = last_cursor_pos (active_props w) /\
    cursor_location (scene_of (context_scene w) w')
      = cursor_location (scene_of (context_scene w) w) /\
    (forall s, s ≠ context_scene w -> scene_of s w' = scene_of s w).
Proof.
  intros F. eexists. split; [by apply add_cursor_history_entry_run|].
  unfold active_props. rewrite props_of_set_props_eq, cursor_of_set_props.
  repeat split.
  - apply appended_history.
  - rewrite appended_active, appended_history. apply lookup_last_appended.
  - rewrite appended_length. destruct (100 <=? _) eqn:E; [lia|]. apply Z.leb_gt in E. lia.
  - intros s Hs. by apply scene_of_set_props_ne.
Qed.

Lemma append_adds_last_and_evicts_oldest_witness :
  Scene_cursor_history_props three_entries = true /\
  exists w',
    add_cursor_history_entry "10:00:12" (vec_of_Z 4 0 0) three_entries = Ok (tt, w') /\
    history_list (props_of "Scene" w') =
      [mkEntry (vec_of_Z 1 0 0) "10:00:00"; mkEntry (vec_of_Z 2 0 0) "10:00:05";
       mkEntry (vec_of_Z 3 0 0) "10:00:09"; mkEntry (vec_of_Z 4 0 0) "10:00:12"] /\
    active_index (props_of "Scene" w') = 3.
Proof.
  split; [reflexivity|].
  destruct (append_adds_last_and_evicts_oldest "10:00:12" (vec_of_Z 4 0 0) three_entries
              eq_refl) as (w' & Hrun & Hlist & Hactive & _).
  change (context_scene three_entries) with "Scene" in Hlist, Hactive.
  exists w'. split; [exact Hrun|]. split; [exact Hlist|].
  rewrite Hactive, Hlist. reflexivity.
Defined.

(** ** The commands *)

(** C8: [CURSOR_OT_start_recording.execute] succeeds, turns recording on,
    stores the live cursor position as the last position and appends one
    entry for that position, which becomes the selected one; the cursor and
    the other scenes are left alone. *)
Theorem start_recording_anchors_current_position (now : string) (w : Bpy) :
  Scene_cursor_history_props w = true ->
  exists w',
    CURSOR_OT_start_recording_execute now w = Ok (FINISHED, w') /\
    is_recording (props_of (context_scene w) w') = true /\
    last_cursor_pos (props_of (context_scene w) w')
      = cursor_location (scene_of (context_scene w) w) /\
    history_list (props_of (context_scene w) w') =
      (if 100 <=? Z.of_nat (length (history_list (active_props w)))
       then drop 1 (history_list (active_props w))
       else history_list (active_props w))
      ++ [mkEntry (cursor_location (scene_of (context_scene w) w)) now] /\
    active_index (props_of (context_scene w) w') =
      Z.of_nat (length (history_list (props_of (context_scene w) w'))) - 1 /\
    cursor_location (scene_of (context_scene w) w')
      = cursor_location (scene_of (context_scene w) w) /\
    (forall s, s ≠ context_scene w -> scene_of s w' = scene_of s w).
Proof.
  intros F. eexists. split; [by apply start_recording_run|].
  unfold active_props. rewrite props_of_set_props_eq, cursor_of_set_props.
  repeat split.
  - rewrite appended_history. reflexivity.
  - intros s Hs. by apply scene_of_set_props_ne.
Qed.

(** The scenario with the cursor at (3,3,3) and an empty store. *)
Lemma start_recording_anchors_current_position_witness :
  Scene_cursor_history_props start_scenario = true /\
  exists w',
    CURSOR_OT_start_recording_execute "10:00:00" start_scenario = Ok (FINISHED, w') /\
    history_list (props_of "Scene" w') = [mkEntry (vec_of_Z 3 3 3) "10:00:00"] /\
    active_index (props_of "Scene" w') = 0 /\
    is_recording (props_of "Scene" w') = true /\
    last_cursor_pos (props_of "Scene" w') = vec_of_Z 3 3 3.
Proof.
  split; [reflexivity|].
  destruct (start_recording_anchors_current_position "10:00:00" start_scenario eq_refl)
    as (w' & Hrun & Hrec & Hlast & Hlist & Hactive & _).
  change (context_scene start_scenario) with "Scene" in Hrec, Hlast, Hlist, Hactive.
  exists w'. split; [exact Hrun|]. split; [exact Hlist|].
  split; [rewrite Hactive, Hlist; reflexivity|].
  split; [exact Hrec | exact Hlast].
Defined.

(** C7: with a non-empty store and a valid selection,
    [CURSOR_OT_jump_to_position.execute] succeeds, moves the live cursor to
    the selected entry's location and stores that location as the last
    position; the recording flag has its prior value, the entries and the
    selection are unchanged, the other scenes are left alone; and a scene
    update delivered afterwards records nothing, as the cursor has not
    moved away from the last position. *)
Theorem jump_to_selected_moves_cursor_only
    (exceeds : Vec -> Vec -> bool) (now : string) (w : Bpy) (e : CursorHistoryEntry) :
  Scene_cursor_history_props w = true ->
  0 <= active_index (active_props w) ->
  history_list (active_props w) !! Z.to_nat (active_index (active_props w)) = Some e ->
  exists w',
    CURSOR_OT_jump_to_position_execute w = Ok (FINISHED, w') /\
    cursor_location (scene_of (context_scene w) w') = location e /\
    last_cursor_pos (props_of (context_scene w) w') = location e /\
    is_recording (props_of (context_scene w) w') = is_recording (active_props w) /\
    history_list (props_of (context_scene w) w') = history_list (active_props w) /\
    active_index (props_of (context_scene w) w') = active_index (active_props w) /\
    (forall s, s ≠ context_scene w -> scene_of s w' = scene_of s w) /\
    (exceeds (location e) (location e) = false ->
     cursor_position_handler exceeds now (context_scene w) w' = Ok (tt, w')).
Proof.
  intros F Hi He. eexists. split; [by apply jump_to_position_run_guarded|].
  repeat split;
    try (unfold active_props, props_of; rewrite scene_of_set_scene_eq; reflexivity).
  - intros s Hs. by apply scene_of_set_scene_ne.
  - intros Hsame. rewrite handler_run_within_tolerance; [reflexivity|].
    unfold props_of. rewrite scene_of_set_scene_eq. exact Hsame.
Qed.

(** The scenario with the entries (1,0,0) and (2,0,0), the first one
    selected, recording enabled. *)
Lemma jump_to_selected_moves_cursor_only_witness :
  (Scene_cursor_history_props jump_scenario = true /\
   0 <= active_index (active_props jump_scenario) /\
   history_list (active_props jump_scenario)
     !! Z.to_nat (active_index (active_props jump_scenario))
     = Some (mkEntry (vec_of_Z 1 0 0) "10:00:00")) /\
  exists w',
    CURSOR_OT_jump_to_position_execute jump_scenario = Ok (FINISHED, w') /\
    cursor_location (scene_of "Scene" w') = vec_of_Z 1 0 0 /\
    last_cursor_pos (props_of "Scene" w') = vec_of_Z 1 0 0 /\
    is_recording (props_of "Scene" w') = true /\
    history_list (props_of "Scene" w') =
      [mkEntry (vec_of_Z 1 0 0) "10:00:00"; mkEntry (vec_of_Z 2 0 0) "10:00:05"] /\
    cursor_position_handler exceeds_exact "10:00:06" "Scene" w' = Ok (tt, w').
Proof.
  split; [repeat split; done|].
  destruct (jump_to_selected_moves_cursor_only exceeds_exact "10:00:06" jump_scenario
              (mkEntry (vec_of_Z 1 0 0) "10:00:00") eq_refl ltac:(done) eq_refl)
    as (w' & Hrun & Hcur & Hlast & Hrec & Hlist & _ & _ & Hnext).
  exists w'. repeat split; try assumption. by apply Hnext.
Defined.

(** C9: with a selection [i] inside the list,
    [CURSOR_OT_delete_entry.execute] succeeds and removes exactly the entry
    at [i]: the entries before and after it remain, in order, and the
    length drops by one; [active_index] becomes the smaller of its old
    value and the new last index; the rest of the store is unchanged.
    When the list becomes empty, [active_index] is -1, and the two commands
    that index with it, jump and delete, return without using it. *)
Theorem delete_selected_removes_one (w : Bpy) :
  Scene_cursor_history_props w = true ->
  0 <= active_index (active_props w) < Z.of_nat (length (history_list (active_props w))) ->
  exists w',
    CURSOR_OT_delete_entry_execute w = Ok (FINISHED, w') /\
    history_list (props_of (context_scene w) w') =
      take (Z.to_nat (active_index (active_props w))) (history_list (active_props w))
      ++ drop (S (Z.to_nat (active_index (active_props w)))) (history_list (active_props w)) /\
    Z.of_nat (length (history_list (props_of (context_scene w) w')))
      = Z.of_nat (length (history_list (active_props w))) - 1 /\
    active_index (props_of (context_scene w) w') =
      Z.min (active_index (active_props w))
            (Z.of_nat (length (history_list (props_of (context_scene w) w'))) - 1) /\
    is_recording (props_of (context_scene w) w') = is_recording (active_props w) /\
    last_cursor_pos (props_of (context_scene w) w') = last_cursor_pos (active_props w) /\
    (forall s, s ≠ context_scene w -> scene_of s w' = scene_of s w) /\
    (history_list (props_of (context_scene w) w') = [] ->
     active_index (props_of (context_scene w) w') = -1 /\
     CURSOR_OT_jump_to_position_execute w' = Ok (FINISHED, w') /\
     CURSOR_OT_delete_entry_execute w' = Ok (FINISHED, w')).
Proof.
  intros F Hi. unfold active_props in *.
  assert (selection_guard (props_of (context_scene w) w) = true) as G.
  { unfold selection_guard. apply andb_true_iff.
    split; [apply Z.ltb_lt | apply Z.leb_le]; lia. }
  pose proof (length_remove_at _ _ Hi) as Hlen.
  set (w' := set_props (context_scene w) (deleted (props_of (context_scene w) w)) w).
  assert (Scene_cursor_history_props w' = true) as F' by exact F.
  assert (props_of (context_scene w') w' = deleted (props_of (context_scene w) w)) as Hp
    by apply props_of_set_props_eq.
  change (context_scene w') with (context_scene w) in Hp.
  exists w'. split; [by apply delete_entry_run_guarded|].
  rewrite Hp. cbn [deleted history_list active_index is_recording last_cursor_pos].
  repeat split.
  - by apply remove_at_in_range.
  - exact Hlen.
  - destruct (_ <=? _) eqn:E; [apply Z.leb_le in E | apply Z.leb_gt in E]; lia.
  - intros s Hs. by apply scene_of_set_props_ne.
  - rewrite H.
    destruct (Z.of_nat _ <=? _) eqn:E; [reflexivity | apply Z.leb_gt in E; cbn in E; lia].
  - apply jump_to_position_run_skip; [exact F'|].
    change (context_scene w') with (context_scene w). rewrite Hp.
    unfold selection_guard, deleted; cbn. by rewrite H.
  - apply delete_entry_run_skip; [exact F'|].
    change (context_scene w') with (context_scene w). rewrite Hp.
    unfold selection_guard, deleted; cbn. by rewrite H.
Qed.

Lemma delete_selected_removes_one_witness :
  (Scene_cursor_history_props three_entries = true /\
   0 <= active_index (active_props three_entries)
     < Z.of_nat (length (history_list (active_props three_entries)))) /\
  exists w',
    CURSOR_OT_delete_entry_execute three_entries = Ok (FINISHED, w') /\
    history_list (props_of "Scene" w') =
      [mkEntry (vec_of_Z 1 0 0) "10:00:00"; mkEntry (vec_of_Z 3 0 0) "10:00:09"] /\
    active_index (props_of "Scene" w') = 1.
Proof.
  assert (0 <= active_index (active_props three_entries)
            < Z.of_nat (length (history_list (active_props three_entries)))) as Hi
    by (change (0 <= 1 < 3); lia).
  split; [split; [reflexivity | exact Hi]|].
  destruct (delete_selected_removes_one three_entries eq_refl Hi)
    as (w' & Hrun & Hlist & _ & Hactive & _).
  change (context_scene three_entries) with "Scene" in Hlist, Hactive.
  exists w'. split; [exact Hrun|]. split; [exact Hlist|].
  rewrite Hactive, Hlist. reflexivity.
Defined.

(** C10, as amended: with the add-on loaded,
    [CURSOR_OT_delete_entry.execute] always returns [FINISHED] without a
    fault.  On an empty store, or with a negative [active_index], the host
    state is unchanged.  On a non-empty store whose [active_index] lies
    past the end, the entries, the recording flag and the last position are
    unchanged, and [active_index] is set to the last index. *)
Theorem delete_selected_unmet_precondition (w : Bpy) :
  Scene_cursor_history_props w = true ->
  (history_list (active_props w) = [] \/ active_index (active_props w) < 0 ->
   CURSOR_OT_delete_entry_execute w = Ok (FINISHED, w)) /\
  (history_list (active_props w) <> [] ->
   Z.of_nat (length (history_list (active_props w))) <= active_index (active_props w) ->
   CURSOR_OT_delete_entry_execute w =
   Ok (FINISHED,
       set_props (context_scene w)
         (mkProps (history_list (active_props w))
                  (Z.of_nat (length (history_list (active_props w))) - 1)
                  (is_recording (active_props w))
                  (last_cursor_pos (active_props w))) w)).
Proof.
  intros F. unfold active_props. split.
  - intros Hunmet. apply delete_entry_run_skip; [exact F|].
    unfold selection_guard. destruct Hunmet as [Hnil | Hneg].
    + by rewrite Hnil.
    + replace (0 <=? _) with false by (symmetry; apply Z.leb_gt; lia).
      apply andb_false_r.
  - intros Hne Hge.
    assert (0 < Z.of_nat (length (history_list (props_of (context_scene w) w)))) as Hpos.
    { destruct (history_list _); [done | cbn; lia]. }
    rewrite delete_entry_run_guarded; [|exact F|].
    + unfold deleted. rewrite remove_at_out_of_range by exact Hge.
      replace (_ <=? _) with true by (symmetry; apply Z.leb_le; lia).
      reflexivity.
    + unfold selection_guard. apply andb_true_iff.
      split; [apply Z.ltb_lt | apply Z.leb_le]; lia.
Qed.

Lemma delete_selected_unmet_precondition_witness :
  Scene_cursor_history_props stale_selection = true /\
  exists w',
    CURSOR_OT_delete_entry_execute stale_selection = Ok (FINISHED, w') /\
    history_list (props_of "Scene" w') = history_list (props_of "Scene" stale_selection) /\
    active_index (props_of "Scene" w') = 1.
Proof.
  split; [reflexivity|].
  destruct (delete_selected_unmet_precondition stale_selection eq_refl) as [_ Hstale].
  eexists. split.
  - apply Hstale; [done | change (2 <= 5); lia].
  - split; reflexivity.
Defined.

(** Delete is not a no-op on every unmet precondition: in a store of two
    entries whose [active_index] is 5, not a valid index,
    [CURSOR_OT_delete_entry.execute] changes [active_index] to 1. *)
Lemma delete_selected_stale_selection_moves_index :
  ~ (0 <= active_index (active_props stale_selection)
       < Z.of_nat (length (history_list (active_props stale_selection)))) /\
  active_index (active_props stale_selection) = 5 /\
  (exists w',
     CURSOR_OT_delete_entry_execute stale_selection = Ok (FINISHED, w') /\
     active_index (props_of "Scene" w') = 1) /\
  CURSOR_OT_delete_entry_execute stale_selection <> Ok (FINISHED, stale_selection).
Proof.
  assert (exists w',
     CURSOR_OT_delete_entry_execute stale_selection = Ok (FINISHED, w') /\
     active_index (props_of "Scene" w') = 1) as Hrun.
  { eexists. split; [vm_compute; reflexivity | reflexivity]. }
  split; [change (~ (0 <= 5 < 2)); lia|].
  split; [reflexivity|].
  split; [exact Hrun|].
  destruct Hrun as (w' & Hrun & Hactive). rewrite Hrun. intros Heq.
  injection Heq as Hw. rewrite Hw in Hactive. discriminate Hactive.
Qed.

(** ** The change detector *)

(** C6: a scene update delivered for a scene whose [is_recording] is false
    leaves the whole host state as it is; and over any sequence of cursor
    moves, each followed by a scene update, on scenes that are not
    recording, the stores of all scenes are the same at the end as at the
    start, whatever the positions and whatever the outcome [exceeds] of
    the distance test. *)
Theorem not_recording_records_nothing
    (exceeds : Vec -> Vec -> bool) (moves : list (string * Vec * string)) (w : Bpy) :
  (forall s pos now, (s, pos, now) ∈ moves -> is_recording (props_of s w) = false) ->
  (forall s pos now, (s, pos, now) ∈ moves ->
     cursor_position_handler exceeds now s w = Ok (tt, w)) /\
  exists w',
    scene_updates exceeds moves w = Ok (tt, w') /\
    forall s, props_of s w' = props_of s w.
Proof.
  intros Hoff. split.
  - intros s pos now Hin. apply handler_run_not_recording. by eapply Hoff.
  - revert w Hoff. induction moves as [|[[s pos] now] rest IH]; intros w Hoff.
    + exists w. split; reflexivity.
    + set (w1 := set_scene s (mkScene pos (cursor_history_props (scene_of s w))) w).
      assert (forall s', props_of s' w1 = props_of s' w) as Hsame.
      { intros s'. unfold props_of, w1. destruct (decide (s = s')) as [->|Hne].
        - by rewrite scene_of_set_scene_eq.
        - by rewrite scene_of_set_scene_ne. }
      destruct (IH w1) as (w' & Hrun & Hprops).
      { intros s' pos' now' Hin. rewrite Hsame. eapply Hoff. right. exact Hin. }
      exists w'. split.
      * cbn [scene_updates]. unfold bind at 1. unfold set_cursor_location. fold w1.
        unfold bind at 1. rewrite handler_run_not_recording.
        -- exact Hrun.
        -- rewrite Hsame. eapply Hoff. left.
      * intros s'. by rewrite Hprops, Hsame.
Qed.

Lemma not_recording_records_nothing_witness :
  (forall s pos now,
     (s, pos, now) ∈ [("Scene", vec_of_Z 1 0 0, "10:00:01"); ("Scene", vec_of_Z 9 9 9, "10:00:02")] ->
     is_recording (props_of s start_scenario) = false) /\
  exists w',
    scene_updates exceeds_exact
      [("Scene", vec_of_Z 1 0 0, "10:00:01"); ("Scene", vec_of_Z 9 9 9, "10:00:02")]
      start_scenario = Ok (tt, w') /\
    forall s, props_of s w' = props_of s start_scenario.
Proof.
  assert (forall s pos now,
     (s, pos, now) ∈ [("Scene", vec_of_Z 1 0 0, "10:00:01"); ("Scene", vec_of_Z 9 9 9, "10:00:02")] ->
     is_recording (props_of s start_scenario) = false) as Hoff.
  { intros s pos now Hin.
    apply elem_of_cons in Hin as [Heq | Hin]; [by inversion Heq|].
    apply elem_of_cons in Hin as [Heq | Hin]; [by inversion Heq|].
    by apply elem_of_nil in Hin. }
  split; [exact Hoff|].
  exact (proj2 (not_recording_records_nothing exceeds_exact _ start_scenario Hoff)).
Defined.

(** C1, at a failing input: scene "A" is the active scene and scene "B",
    which is recording, has moved its cursor from (0,0,0) to (1,0,0).  The
    scene update delivered for "B" leaves the entries of "B" empty, sets
    the last position of "B", and appends the entry to the store of "A",
    which was in its default state. *)
Theorem update_of_inactive_scene_records_in_active_scene :
  props_of "A" two_scenes = default_props /\
  exists w',
    cursor_position_handler exceeds_exact "10:00:00" "B" two_scenes = Ok (tt, w') /\
    history_list (props_of "B" w') = [] /\
    last_cursor_pos (props_of "B" w') = vec_of_Z 1 0 0 /\
    history_list (props_of "A" w') = [mkEntry (vec_of_Z 1 0 0) "10:00:00"] /\
    active_index (props_of "A" w') = 0.
Proof.
  split; [reflexivity|].
  eexists. split; [vm_compute; reflexivity|].
  repeat split; reflexivity.
Qed.

(** ** The invariant of the stores *)

Lemma props_of_set_props s s' p w :
  props_of s' (set_props s p w) = if decide (s = s') then p else props_of s' w.
Proof.
  destruct (decide (s = s')) as [->|Hne].
  - apply props_of_set_props_eq.
  - by apply props_of_set_props_ne.
Qed.

Lemma store_ok_default : store_ok default_props.
Proof. split; [cbn; lia | done]. Qed.

Lemma store_ok_ext p q :
  history_list q = history_list p -> active_index q = active_index p ->
  store_ok p -> store_ok q.
Proof. unfold store_ok. intros -> ->. done. Qed.

Lemma store_ok_appended e p : store_ok p -> store_ok (appended e p).
Proof.
  intros [Hlen _]. pose proof (appended_length e p) as Hl.
  split.
  - destruct (100 <=? _) eqn:E; [|apply Z.leb_gt in E]; lia.
  - intros _. rewrite appended_active.
    destruct (100 <=? _) eqn:E; [apply Z.leb_le in E|]; lia.
Qed.

Lemma store_ok_deleted p :
  store_ok p -> selection_guard p = true -> store_ok (deleted p).
Proof.
  intros [Hlen Hsel] G. unfold selection_guard in G.
  apply andb_true_iff in G as [Hpos Hi]. apply Z.ltb_lt in Hpos. apply Z.leb_le in Hi.
  assert (history_list p <> []) as Hne by (destruct (history_list p); [cbn in Hpos; lia | done]).
  specialize (Hsel Hne).
  pose proof (length_remove_at _ _ Hsel) as Hl.
  unfold deleted, store_ok; cbn [history_list active_index]. split; [lia|].
  intros Hne'.
  assert (0 < Z.of_nat (length (remove_at (active_index p) (history_list p)))) as Hpos'
    by (destruct (remove_at _ _); [done | cbn; lia]).
  destruct (_ <=? _) eqn:E; [apply Z.leb_le in E | apply Z.leb_gt in E]; lia.
Qed.

Lemma store_ok_selection p :
  store_ok p -> selection_guard p = true ->
  0 <= active_index p /\ exists e, history_list p !! Z.to_nat (active_index p) = Some e.
Proof.
  intros [_ Hsel] G. unfold selection_guard in G.
  apply andb_true_iff in G as [Hpos Hi]. apply Z.ltb_lt in Hpos. apply Z.leb_le in Hi.
  assert (history_list p <> []) as Hne by (destruct (history_list p); [cbn in Hpos; lia | done]).
  specialize (Hsel Hne). split; [lia|].
  apply lookup_lt_is_Some. lia.
Qed.

(** The invariant of the host state: the add-on is loaded and every store
    is within its bounds. *)
Lemma run_event_preserves exceeds (ev : Event) (w : Bpy) :
  Scene_cursor_history_props w = true ->
  (forall s, store_ok (props_of s w)) ->
  exists w',
    run_event exceeds ev w = Ok (tt, w') /\
    Scene_cursor_history_props w' = true /\
    forall s, store_ok (props_of s w').
Proof.
  intros F Hok.
  assert (forall p w0, Scene_cursor_history_props w0 = true ->
            (forall s, store_ok (props_of s w0)) -> store_ok p ->
            forall s, store_ok (props_of s (set_props (context_scene w) p w0))) as Hset.
  { intros p w0 _ Hok0 Hp s. rewrite props_of_set_props. by case_decide. }
  destruct ev as [[pos now| | |now| |]|s pos|s|s now]; cbn [run_event run_command].
  - eexists. split; [by apply add_cursor_history_entry_run|]. split; [exact F|].
    apply Hset; auto using store_ok_appended.
  - unfold bind. destruct (selection_guard (props_of (context_scene w) w)) eqn:G.
    + rewrite delete_entry_run_guarded by assumption. eexists. split; [reflexivity|].
      split; [exact F|]. apply Hset; auto using store_ok_deleted.
    + rewrite delete_entry_run_skip by assumption. eauto.
  - unfold bind. rewrite clear_history_run by assumption. eexists. split; [reflexivity|].
    split; [exact F|]. apply Hset; auto. split; [cbn; lia | done].
  - unfold bind. rewrite start_recording_run by assumption. eexists. split; [reflexivity|].
    split; [exact F|]. apply Hset; auto. apply store_ok_appended.
    eapply store_ok_ext; [| |apply (Hok (context_scene w))]; reflexivity.
  - unfold bind. rewrite stop_recording_run by assumption. eexists. split; [reflexivity|].
    split; [exact F|]. apply Hset; auto.
    eapply store_ok_ext; [| |apply (Hok (context_scene w))]; reflexivity.
  - unfold bind. destruct (selection_guard (props_of (context_scene w) w)) eqn:G.
    + destruct (store_ok_selection _ (Hok (context_scene w)) G) as (Hi & e & He).
      rewrite (jump_to_position_run_guarded w e) by assumption.
      eexists. split; [reflexivity|]. split; [exact F|].
      intros s. unfold props_of. destruct (decide (context_scene w = s)) as [<-|Hne].
      * rewrite scene_of_set_scene_eq.
        eapply store_ok_ext; [| |apply (Hok (context_scene w))]; reflexivity.
      * rewrite scene_of_set_scene_ne by done. apply Hok.
    + rewrite jump_to_position_run_skip by assumption. eauto.
  - eexists. split; [reflexivity|]. split; [exact F|].
    intros s'. unfold props_of. destruct (decide (s = s')) as [<-|Hne].
    + rewrite scene_of_set_scene_eq. apply Hok.
    + rewrite scene_of_set_scene_ne by done. apply Hok.
  - eexists. split; [reflexivity|]. split; [exact F|]. exact Hok.
  - destruct (is_recording (props_of s w)) eqn:R;
      [|rewrite handler_run_not_recording by assumption; eauto].
    destruct (exceeds (cursor_location (scene_of s w)) (last_cursor_pos (props_of s w))) eqn:E;
      [|rewrite handler_run_within_tolerance by assumption; eauto].
    rewrite handler_run_moved by assumption. eexists. split; [reflexivity|].
    split; [exact F|]. cbv zeta.
    intros s'. rewrite props_of_set_props. case_decide.
    + subst s'. eapply store_ok_ext; [reflexivity|reflexivity|].
      apply Hset; auto using store_ok_appended.
    + apply Hset; auto using store_ok_appended.
Qed.

(** C3: in every state reachable from an initial one by commands (append,
    delete, clear, start, stop, jump), also when the host moves cursors,
    switches the active scene and delivers scene updates in between, every
    scene's store holds at most 100 entries and, when it holds any, its
    [active_index] is an index into them; and from such a state every
    further command or event goes through without a fault. *)
Theorem reachable_store_bounded_and_selection_valid
    (exceeds : Vec -> Vec -> bool) (w : Bpy) :
  reachable exceeds w ->
  (forall s,
     Z.of_nat (length (history_list (props_of s w))) <= 100 /\
     (history_list (props_of s w) <> [] ->
      0 <= active_index (props_of s w) < Z.of_nat (length (history_list (props_of s w))))) /\
  (forall ev, exists w', run_event exceeds ev w = Ok (tt, w')).
Proof.
  intros Hreach.
  assert (Scene_cursor_history_props w = true /\ forall s, store_ok (props_of s w)) as [F Hok].
  { induction Hreach as [w [F Hdef]|w ev w' _ [F Hok] Hrun].
    - split; [exact F|]. intros s. rewrite Hdef. apply store_ok_default.
    - destruct (run_event_preserves exceeds ev w F Hok) as (w'' & Hrun' & F' & Hok').
      rewrite Hrun in Hrun'. injection Hrun' as <-. by split. }
  split; [exact Hok|].
  intros ev. destruct (run_event_preserves exceeds ev w F Hok) as (w' & Hrun & _).
  by exists w'.
Qed.

Lemma start_scenario_initial : initial start_scenario.
Proof.
  split; [reflexivity|]. intros s. unfold props_of, scene_of; cbn.
  destruct (decide ("Scene" = s)) as [<-|Hne].
  - by rewrite lookup_total_insert_eq.
  - rewrite lookup_total_insert_ne by done. by rewrite lookup_total_empty.
Qed.

Lemma reachable_store_bounded_and_selection_valid_witness :
  reachable exceeds_exact started_scenario /\
  Z.of_nat (length (history_list (props_of "Scene" started_scenario))) <= 100 /\
  (history_list (props_of "Scene" started_scenario) <> [] ->
   0 <= active_index (props_of "Scene" started_scenario)
     < Z.of_nat (length (history_list (props_of "Scene" started_scenario)))).
Proof.
  assert (reachable exceeds_exact started_scenario) as Hreach.
  { apply (reachable_step exceeds_exact start_scenario
             (UserCommand (StartRecording "10:00:00"))).
    - apply reachable_initial, start_scenario_initial.
    - vm_compute. reflexivity. }
  split; [exact Hreach|].
  exact (proj1 (reachable_store_bounded_and_selection_valid exceeds_exact started_scenario
                  Hreach) "Scene").
Defined.

(** ** Loading and unloading *)

Lemma for_each_register_classes fl hs scs ctx :
  for_each register_class classes (mkBpy [] fl hs scs ctx)
  = Ok (tt, mkBpy (rev classes) fl hs scs ctx).
Proof. reflexivity. Qed.

Lemma for_each_unregister_classes fl hs scs ctx :
  for_each unregister_class (rev classes) (mkBpy (rev classes) fl hs scs ctx)
  = Ok (tt, mkBpy [] fl hs scs ctx).
Proof. reflexivity. Qed.

Lemma register_class_twice cls w :
  cls ∈ registered_classes w -> register_class cls w = Raise ValueError.
Proof. intros H. unfold register_class. by rewrite decide_True. Qed.

(** C2, as amended: only the update callback is guarded.  [register] adds
    the callback unless it is already in the handler list, and [unregister]
    removes it only if it is there; so [register] on a host where no class
    of the add-on is registered, and [unregister] on the loaded add-on,
    raise no fault.  The deletion of [Scene.cursor_history_props] and the
    class registrations are not guarded: [unregister] on a host where the
    property is not defined raises [AttributeError], and [register] on a
    host where the first class is already registered raises [ValueError]. *)
Theorem register_unregister_guard_callback_only (w : Bpy) :
  (registered_classes w = [] ->
   register w =
   Ok (tt, mkBpy (rev classes) true
             (if decide (cursor_position_handler_fn ∈ depsgraph_update_post w)
              then depsgraph_update_post w
              else depsgraph_update_post w ++ [cursor_position_handler_fn])
             (scenes w) (context_scene w))) /\
  (registered_classes w = rev classes -> Scene_cursor_history_props w = true ->
   unregister w =
   Ok (tt, mkBpy [] false
             (if decide (cursor_position_handler_fn ∈ depsgraph_update_post w)
              then list_remove_first cursor_position_handler_fn (depsgraph_update_post w)
              else depsgraph_update_post w)
             (scenes w) (context_scene w))) /\
  (Scene_cursor_history_props w = false -> unregister w = Raise AttributeError) /\
  (CursorHistoryEntry_cls ∈ registered_classes w -> register w = Raise ValueError).
Proof.
  destruct w as [cls fl hs scs ctx]; cbn [registered_classes Scene_cursor_history_props
    depsgraph_update_post scenes context_scene].
  repeat split.
  - intros ->. unfold register. unfold bind at 1. rewrite for_each_register_classes.
    unfold bind, define_Scene_cursor_history_props, get_depsgraph_update_post; cbn.
    destruct (decide (cursor_position_handler_fn ∈ hs)); reflexivity.
  - intros -> ->. unfold unregister, bind, get_depsgraph_update_post; cbn -[rev classes].
    destruct (decide (cursor_position_handler_fn ∈ hs)); reflexivity.
  - intros ->. unfold unregister, bind, get_depsgraph_update_post; cbn.
    destruct (decide (cursor_position_handler_fn ∈ hs)); reflexivity.
  - intros Hin. unfold register. unfold bind at 1. cbn [classes for_each].
    unfold bind at 1. by rewrite register_class_twice.
Qed.

Lemma register_unregister_guard_callback_only_witness :
  (registered_classes fresh_host = [] /\
   register fresh_host = Ok (tt, loaded_host ∅ "Scene")) /\
  (registered_classes (loaded_host ∅ "Scene") = rev classes /\
   Scene_cursor_history_props (loaded_host ∅ "Scene") = true /\
   unregister (loaded_host ∅ "Scene") = Ok (tt, fresh_host)) /\
  (Scene_cursor_history_props fresh_host = false /\
   unregister fresh_host = Raise AttributeError) /\
  (CursorHistoryEntry_cls ∈ registered_classes (loaded_host ∅ "Scene") /\
   register (loaded_host ∅ "Scene") = Raise ValueError).
Proof.
  assert (CursorHistoryEntry_cls ∈ registered_classes (loaded_host ∅ "Scene")) as Hin
    by (cbn; repeat (apply elem_of_cons; (by left) || right)).
  split; [split; [reflexivity|]|split; [split; [reflexivity | split; [reflexivity|]]|split]].
  - exact (proj1 (register_unregister_guard_callback_only fresh_host) eq_refl).
  - exact (proj1 (proj2 (register_unregister_guard_callback_only (loaded_host ∅ "Scene")))
             eq_refl eq_refl).
  - split; [reflexivity|].
    exact (proj1 (proj2 (proj2 (register_unregister_guard_callback_only fresh_host))) eq_refl).
  - split; [exact Hin|].
    exact (proj2 (proj2 (proj2 (register_unregister_guard_callback_only
                                   (loaded_host ∅ "Scene")))) Hin).
Defined.

(** Unloading is not idempotent: [unregister] without a prior [register]
    raises [AttributeError], and so does a second [unregister] in a row; a
    second [register] in a row raises [ValueError]. *)
Lemma unregister_without_register_faults :
  unregister fresh_host = Raise AttributeError /\
  (exists w1 w2,
     register fresh_host = Ok (tt, w1) /\
     unregister w1 = Ok (tt, w2) /\
     unregister w2 = Raise AttributeError) /\
  (exists w1, register fresh_host = Ok (tt, w1) /\ register w1 = Raise ValueError).
Proof.
  split; [reflexivity|]. split.
  - exists (loaded_host ∅ "Scene"), fresh_host. repeat split; reflexivity.
  - exists (loaded_host ∅ "Scene"). split; reflexivity.
Qed.

(** ** Further properties of the commands *)

Lemma scene_updates_while_off exceeds (moves : list (string * Vec * string)) (w : Bpy) :
  (forall s pos now, (s, pos, now) ∈ moves -> is_recording (props_of s w) = false) ->
  exists w',
    scene_updates exceeds moves w = Ok (tt, w') /\ forall s, props_of s w' = props_of s w.
Proof.
  revert w. induction moves as [|[[s pos] now] rest IH]; intros w Hoff.
  - exists w. split; reflexivity.
  - set (w1 := set_scene s (mkScene pos (cursor_history_props (scene_of s w))) w).
    assert (forall s', props_of s' w1 = props_of s' w) as Hsame.
    { intros s'. unfold props_of, w1. destruct (decide (s = s')) as [->|Hne].
      - by rewrite scene_of_set_scene_eq.
      - by rewrite scene_of_set_scene_ne. }
    destruct (IH w1) as (w' & Hrun & Hprops).
    { intros s' pos' now' Hin. rewrite Hsame. eapply Hoff. right. exact Hin. }
    exists w'. split.
    + cbn [scene_updates]. unfold bind at 1. unfold set_cursor_location. fold w1.
      unfold bind at 1. rewrite handler_run_not_recording.
      * exact Hrun.
      * rewrite Hsame. eapply Hoff. left.
    + intros s'. by rewrite Hprops, Hsame.
Qed.

(** X1: [CURSOR_OT_stop_recording.execute] succeeds, turns recording off
    and leaves the entries, the selection, the last position, the cursor
    and the other scenes as they are; afterwards no sequence of cursor
    moves and scene updates of the active scene changes any store. *)
Theorem stop_recording_keeps_history
    (exceeds : Vec -> Vec -> bool) (w : Bpy) :
  Scene_cursor_history_props w = true ->
  exists w',
    CURSOR_OT_stop_recording_execute w = Ok (FINISHED, w') /\
    is_recording (props_of (context_scene w) w') = false /\
    history_list (props_of (context_scene w) w') = history_list (active_props w) /\
    active_index (props_of (context_scene w) w') = active_index (active_props w) /\
    last_cursor_pos (props_of (context_scene w) w') = last_cursor_pos (active_props w) /\
    cursor_location (scene_of (context_scene w) w')
      = cursor_location (scene_of (context_scene w) w) /\
    (forall s, s ≠ context_scene w -> scene_of s w' = scene_of s w) /\
    (forall moves : list (string * Vec * string),
       (forall s pos now, (s, pos, now) ∈ moves -> s = context_scene w) ->
       exists w'',
         scene_updates exceeds moves w' = Ok (tt, w'') /\
         forall s, props_of s w'' = props_of s w').
Proof.
  intros F. eexists. split; [by apply stop_recording_run|].
  unfold active_props. rewrite props_of_set_props_eq, cursor_of_set_props.
  repeat split.
  - intros s Hs. by apply scene_of_set_props_ne.
  - intros moves Hactive. apply scene_updates_while_off.
    intros s pos now Hin. rewrite (Hactive _ _ _ Hin).
    by rewrite props_of_set_props_eq.
Qed.

Lemma stop_recording_keeps_history_witness :
  Scene_cursor_history_props moved_scenario = true /\
  exists w',
    CURSOR_OT_stop_recording_execute moved_scenario = Ok (FINISHED, w') /\
    is_recording (props_of "Scene" w') = false /\
    history_list (props_of "Scene" w') = [mkEntry (vec_of_Z 3 3 3) "10:00:00"].
Proof.
  split; [reflexivity|].
  destruct (stop_recording_keeps_history exceeds_exact moved_scenario eq_refl)
    as (w' & Hrun & Hrec & Hlist & _).
  exists w'. split; [exact Hrun|]. split; [exact Hrec | exact Hlist].
Defined.

(** X2: [CURSOR_OT_clear_history.execute] succeeds from any store, leaves
    no entry, sets [active_index] to 0 and keeps the recording flag, the
    last position, the cursor and the other scenes; run again it changes
    nothing, and neither do delete and jump on the cleared store. *)
Theorem clear_history_empties_and_is_idempotent (w : Bpy) :
  Scene_cursor_history_props w = true ->
  exists w',
    CURSOR_OT_clear_history_execute w = Ok (FINISHED, w') /\
    history_list (props_of (context_scene w) w') = [] /\
    active_index (props_of (context_scene w) w') = 0 /\
    is_recording (props_of (context_scene w) w') = is_recording (active_props w) /\
    last_cursor_pos (props_of (context_scene w) w') = last_cursor_pos (active_props w) /\
    cursor_location (scene_of (context_scene w) w')
      = cursor_location (scene_of (context_scene w) w) /\
    (forall s, s ≠ context_scene w -> scene_of s w' = scene_of s w) /\
    CURSOR_OT_clear_history_execute w' = Ok (FINISHED, w') /\
    CURSOR_OT_delete_entry_execute w' = Ok (FINISHED, w') /\
    CURSOR_OT_jump_to_position_execute w' = Ok (FINISHED, w').
Proof.
  intros F.
  set (p' := mkProps [] 0 (is_recording (props_of (context_scene w) w))
                     (last_cursor_pos (props_of (context_scene w) w))).
  set (w' := set_props (context_scene w) p' w).
  assert (Scene_cursor_history_props w' = true) as F' by exact F.
  assert (props_of (context_scene w') w' = p') as Hp by apply props_of_set_props_eq.
  exists w'. split; [by apply clear_history_run|].
  change (context_scene w') with (context_scene w) in Hp.
  unfold active_props. rewrite Hp. unfold w' at 1. rewrite cursor_of_set_props.
  repeat split.
  - intros s Hs. by apply scene_of_set_props_ne.
  - rewrite clear_history_run by exact F'.
    change (context_scene w') with (context_scene w). rewrite Hp.
    unfold w'. by rewrite set_props_set_props.
  - apply delete_entry_run_skip; [exact F'|].
    change (context_scene w') with (context_scene w). by rewrite Hp.
  - apply jump_to_position_run_skip; [exact F'|].
    change (context_scene w') with (context_scene w). by rewrite Hp.
Qed.

Lemma clear_history_empties_and_is_idempotent_witness :
  Scene_cursor_history_props three_entries = true /\
  exists w',
    CURSOR_OT_clear_history_execute three_entries = Ok (FINISHED, w') /\
    history_list (props_of "Scene" w') = [] /\
    active_index (props_of "Scene" w') = 0 /\
    CURSOR_OT_clear_history_execute w' = Ok (FINISHED, w').
Proof.
  split; [reflexivity|].
  destruct (clear_history_empties_and_is_idempotent three_entries eq_refl)
    as (w' & Hrun & Hlist & Hactive & _ & _ & _ & _ & Hagain & _).
  exists w'. repeat split; assumption.
Defined.

(** X3: the edge cases of [CURSOR_OT_jump_to_position.execute].  On an
    empty store, or with a negative [active_index], it returns [FINISHED]
    and changes nothing.  On a non-empty store whose [active_index] lies
    past the end, the guard lets the call through and the lookup of the
    entry raises [IndexError]. *)
Theorem jump_to_selected_edge_cases (w : Bpy) :
  Scene_cursor_history_props w = true ->
  (history_list (active_props w) = [] \/ active_index (active_props w) < 0 ->
   CURSOR_OT_jump_to_position_execute w = Ok (FINISHED, w)) /\
  (history_list (active_props w) <> [] ->
   Z.of_nat (length (history_list (active_props w))) <= active_index (active_props w) ->
   CURSOR_OT_jump_to_position_execute w = Raise IndexError).
Proof.
  intros F. unfold active_props. split.
  - intros Hunmet. apply jump_to_position_run_skip; [exact F|].
    unfold selection_guard. destruct Hunmet as [Hnil | Hneg].
    + by rewrite Hnil.
    + replace (0 <=? _) with false by (symmetry; apply Z.leb_gt; lia).
      apply andb_false_r.
  - intros Hne Hge. by apply jump_to_position_run_stale.
Qed.

Lemma jump_to_selected_edge_cases_witness :
  Scene_cursor_history_props stale_selection = true /\
  CURSOR_OT_jump_to_position_execute stale_selection = Raise IndexError /\
  CURSOR_OT_jump_to_position_execute start_scenario = Ok (FINISHED, start_scenario).
Proof.
  split; [reflexivity|]. split.
  - apply (proj2 (jump_to_selected_edge_cases stale_selection eq_refl));
      [done | change (2 <= 5); lia].
  - apply (proj1 (jump_to_selected_edge_cases start_scenario eq_refl)). by left.
Defined.

(** X4: with a valid selection, [CURSOR_OT_jump_to_position.execute] run a
    second time changes nothing. *)
Theorem jump_to_selected_is_idempotent (w : Bpy) (e : CursorHistoryEntry) :
  Scene_cursor_history_props w = true ->
  0 <= active_index (active_props w) ->
  history_list (active_props w) !! Z.to_nat (active_index (active_props w)) = Some e ->
  exists w',
    CURSOR_OT_jump_to_position_execute w = Ok (FINISHED, w') /\
    CURSOR_OT_jump_to_position_execute w' = Ok (FINISHED, w').
Proof.
  intros F Hi He. unfold active_props in *.
  eexists. split; [by apply jump_to_position_run_guarded|].
  match goal with |- _ ?w1 = _ => set (w' := w1) end.
  assert (props_of (context_scene w) w'
          = mkProps (history_list (props_of (context_scene w) w))
                    (active_index (props_of (context_scene w) w))
                    (is_recording (props_of (context_scene w) w)) (location e)) as Hp.
  { unfold props_of at 1, w'. by rewrite scene_of_set_scene_eq. }
  rewrite (jump_to_position_run_guarded w' e).
  - change (context_scene w') with (context_scene w). rewrite Hp. cbn.
    unfold w'. by rewrite set_scene_set_scene.
  - exact F.
  - change (context_scene w') with (context_scene w). by rewrite Hp.
  - change (context_scene w') with (context_scene w). by rewrite Hp.
Qed.

Lemma jump_to_selected_is_idempotent_witness :
  (Scene_cursor_history_props jump_scenario = true /\
   0 <= active_index (active_props jump_scenario) /\
   history_list (active_props jump_scenario)
     !! Z.to_nat (active_index (active_props jump_scenario))
     = Some (mkEntry (vec_of_Z 1 0 0) "10:00:00")) /\
  exists w',
    CURSOR_OT_jump_to_position_execute jump_scenario = Ok (FINISHED, w') /\
    CURSOR_OT_jump_to_position_execute w' = Ok (FINISHED, w').
Proof.
  split; [repeat split; done|].
  exact (jump_to_selected_is_idempotent jump_scenario
           (mkEntry (vec_of_Z 1 0 0) "10:00:00") eq_refl ltac:(done) eq_refl).
Defined.

(** ** Further properties of the change detector *)

(** X5: when the updated scene is the active scene, recording is on and
    the distance test is true, [cursor_position_handler] succeeds and
    records in that scene's own store: the entry for the cursor position is
    the last one, the entry at index 0 goes exactly when the list already
    held 100 entries or more, [active_index] selects the new entry, the
    last position is the cursor position; recording stays on, and the
    cursor and the other scenes are left alone. *)
Theorem update_of_active_scene_records_in_place
    (exceeds : Vec -> Vec -> bool) (now : string) (w : Bpy) :
  Scene_cursor_history_props w = true ->
  is_recording (active_props w) = true ->
  exceeds (cursor_location (scene_of (context_scene w) w))
          (last_cursor_pos (active_props w)) = true ->
  exists w',
    cursor_position_handler exceeds now (context_scene w) w = Ok (tt, w') /\
    history_list (props_of (context_scene w) w') =
      (if 100 <=? Z.of_nat (length (history_list (active_props w)))
       then drop 1 (history_list (active_props w))
       else history_list (active_props w))
      ++ [mkEntry (cursor_location (scene_of (context_scene w) w)) now] /\
    active_index (props_of (context_scene w) w') =
      Z.of_nat (length (history_list (props_of (context_scene w) w'))) - 1 /\
    last_cursor_pos (props_of (context_scene w) w')
      = cursor_location (scene_of (context_scene w) w) /\
    is_recording (props_of (context_scene w) w') = true /\
    cursor_location (scene_of (context_scene w) w')
      = cursor_location (scene_of (context_scene w) w) /\
    (forall s, s ≠ context_scene w -> scene_of s w' = scene_of s w).
Proof.
  intros F R E. unfold active_props in *.
  eexists. split; [by apply handler_run_moved|]. cbv zeta.
  rewrite !props_of_set_props_eq, !cursor_of_set_props.
  cbn [history_list active_index is_recording last_cursor_pos].
  repeat split.
  - apply appended_history.
  - exact R.
  - intros s Hs. by rewrite !scene_of_set_props_ne.
Qed.

Lemma update_of_active_scene_records_in_place_witness :
  (Scene_cursor_history_props moved_scenario = true /\
   is_recording (active_props moved_scenario) = true /\
   exceeds_exact (cursor_location (scene_of (context_scene moved_scenario) moved_scenario))
                 (last_cursor_pos (active_props moved_scenario)) = true) /\
  exists w',
    cursor_position_handler exceeds_exact "10:00:03" "Scene" moved_scenario = Ok (tt, w') /\
    history_list (props_of "Scene" w') =
      [mkEntry (vec_of_Z 3 3 3) "10:00:00"; mkEntry (vec_of_Z 4 3 3) "10:00:03"] /\
    active_index (props_of "Scene" w') = 1 /\
    last_cursor_pos (props_of "Scene" w') = vec_of_Z 4 3 3.
Proof.
  split; [repeat split; reflexivity|].
  destruct (update_of_active_scene_records_in_place exceeds_exact "10:00:03" moved_scenario
              eq_refl eq_refl eq_refl) as (w' & Hrun & Hlist & Hactive & Hlast & _).
  change (context_scene moved_scenario) with "Scene" in Hrun, Hlist, Hactive, Hlast.
  exists w'. split; [exact Hrun|]. split; [exact Hlist|].
  split; [rewrite Hactive, Hlist; reflexivity | exact Hlast].
Defined.

(** X6: a scene update delivered twice without a cursor move in between
    records at most once: whatever the first call did, for whatever scene
    and host state, the second call changes nothing, provided the distance
    test is false between the cursor position and itself. *)
Theorem repeated_update_records_once
    (exceeds : Vec -> Vec -> bool) (now now' : string) (s : string) (w : Bpy) :
  exceeds (cursor_location (scene_of s w)) (cursor_location (scene_of s w)) = false ->
  exists w',
    cursor_position_handler exceeds now s w = Ok (tt, w') /\
    cursor_position_handler exceeds now' s w' = Ok (tt, w').
Proof.
  intros Hrefl.
  destruct (Scene_cursor_history_props w) eqn:F;
    [|exists w; split; by apply handler_run_unloaded].
  destruct (is_recording (props_of s w)) eqn:R;
    [|exists w; split; by apply handler_run_not_recording].
  destruct (exceeds (cursor_location (scene_of s w)) (last_cursor_pos (props_of s w))) eqn:E;
    [|exists w; split; by apply handler_run_within_tolerance].
  eexists. split; [by apply handler_run_moved|]. cbv zeta.
  rewrite handler_run_within_tolerance; [reflexivity|].
  rewrite props_of_set_props_eq, !cursor_of_set_props. exact Hrefl.
Qed.

Lemma repeated_update_records_once_witness :
  exceeds_exact (cursor_location (scene_of "B" two_scenes))
                (cursor_location (scene_of "B" two_scenes)) = false /\
  exists w',
    cursor_position_handler exceeds_exact "10:00:00" "B" two_scenes = Ok (tt, w') /\
    cursor_position_handler exceeds_exact "10:00:01" "B" w' = Ok (tt, w').
Proof.
  split; [reflexivity|].
  exact (repeated_update_records_once exceeds_exact "10:00:00" "10:00:01" "B" two_scenes
           eq_refl).
Defined.

(** The handler either changes nothing or takes its recording branch. *)
Lemma handler_run_cases exceeds now s w :
  cursor_position_handler exceeds now s w = Ok (tt, w) \/
  (Scene_cursor_history_props w = true /\
   is_recording (props_of s w) = true /\
   exceeds (cursor_location (scene_of s w)) (last_cursor_pos (props_of s w)) = true /\
   cursor_position_handler exceeds now s w =
   Ok (tt,
       set_props s
         (mkProps
            (history_list (props_of s (set_props (context_scene w)
               (appended (mkEntry (cursor_location (scene_of s w)) now)
                  (props_of (context_scene w) w)) w)))
            (active_index (props_of s (set_props (context_scene w)
               (appended (mkEntry (cursor_location (scene_of s w)) now)
                  (props_of (context_scene w) w)) w)))
            (is_recording (props_of s (set_props (context_scene w)
               (appended (mkEntry (cursor_location (scene_of s w)) now)
                  (props_of (context_scene w) w)) w)))
            (cursor_location (scene_of s w)))
         (set_props (context_scene w)
            (appended (mkEntry (cursor_location (scene_of s w)) now)
               (props_of (context_scene w) w)) w))).
Proof.
  destruct (Scene_cursor_history_props w) eqn:F;
    [|left; by apply handler_run_unloaded].
  destruct (is_recording (props_of s w)) eqn:R;
    [|left; by apply handler_run_not_recording].
  destruct (exceeds (cursor_location (scene_of s w)) (last_cursor_pos (props_of s w))) eqn:E;
    [|left; by apply handler_run_within_tolerance].
  right. repeat split. by apply handler_run_moved.
Qed.

(** X7: what a scene update never does.  For every scene and every host
    state, also one where the add-on's property is not defined,
    [cursor_position_handler] returns without a fault; it moves no cursor,
    changes no recording flag, changes the entries and the selection of no
    scene but the active one, changes the last position of no scene but the
    updated one, and leaves the active scene, the registered classes, the
    property definition and the handler list as they are. *)
Theorem scene_update_frame
    (exceeds : Vec -> Vec -> bool) (now : string) (s : string) (w : Bpy) :
  exists w',
    cursor_position_handler exceeds now s w = Ok (tt, w') /\
    (forall s', cursor_location (scene_of s' w') = cursor_location (scene_of s' w)) /\
    (forall s', is_recording (props_of s' w') = is_recording (props_of s' w)) /\
    (forall s', s' ≠ context_scene w ->
       history_list (props_of s' w') = history_list (props_of s' w) /\
       active_index (props_of s' w') = active_index (props_of s' w)) /\
    (forall s', s' ≠ s ->
       last_cursor_pos (props_of s' w') = last_cursor_pos (props_of s' w)) /\
    context_scene w' = context_scene w /\
    registered_classes w' = registered_classes w /\
    Scene_cursor_history_props w' = Scene_cursor_history_props w /\
    depsgraph_update_post w' = depsgraph_update_post w.
Proof.
  destruct (handler_run_cases exceeds now s w) as [Hrun | (F & R & E & Hrun)];
    rewrite Hrun; [exists w; repeat split; reflexivity|].
  eexists. split; [reflexivity|].
  repeat split.
  - intros s'. by rewrite !cursor_of_set_props.
  - intros s'. rewrite !props_of_set_props.
    repeat case_decide; subst; cbn [is_recording appended];
      rewrite ?props_of_set_props_eq; reflexivity.
  - rewrite !props_of_set_props.
    repeat case_decide; subst; cbn [history_list];
      rewrite ?props_of_set_props_ne by done; congruence.
  - rewrite !props_of_set_props.
    repeat case_decide; subst; cbn [active_index];
      rewrite ?props_of_set_props_ne by done; congruence.
  - intros s' Hs'. rewrite !props_of_set_props.
    repeat case_decide; subst; cbn [last_cursor_pos appended]; congruence.
Qed.

(** X8: recording started and a scene update delivered right away, the
    cursor not having moved: [CURSOR_OT_start_recording.execute] has stored
    the cursor position as the last position, so the update records
    nothing, provided the distance test is false between the cursor
    position and itself. *)
Theorem start_recording_then_update_records_once
    (exceeds : Vec -> Vec -> bool) (now now' : string) (w : Bpy) :
  Scene_cursor_history_props w = true ->
  exceeds (cursor_location (scene_of (context_scene w) w))
          (cursor_location (scene_of (context_scene w) w)) = false ->
  exists w',
    CURSOR_OT_start_recording_execute now w = Ok (FINISHED, w') /\
    is_recording (props_of (context_scene w) w') = true /\
    cursor_position_handler exceeds now' (context_scene w) w' = Ok (tt, w').
Proof.
  intros F Hrefl. eexists. split; [by apply start_recording_run|].
  split; [by rewrite props_of_set_props_eq|].
  rewrite handler_run_within_tolerance; [reflexivity|].
  rewrite props_of_set_props_eq, cursor_of_set_props. exact Hrefl.
Qed.

Lemma start_recording_then_update_records_once_witness :
  (Scene_cursor_history_props start_scenario = true /\
   exceeds_exact (cursor_location (scene_of (context_scene start_scenario) start_scenario))
                 (cursor_location (scene_of (context_scene start_scenario) start_scenario))
     = false) /\
  exists w',
    CURSOR_OT_start_recording_execute "10:00:00" start_scenario = Ok (FINISHED, w') /\
    is_recording (props_of "Scene" w') = true /\
    cursor_position_handler exceeds_exact "10:00:01" "Scene" w' = Ok (tt, w').
Proof.
  split; [split; reflexivity|].
  exact (start_recording_then_update_records_once exceeds_exact "10:00:00" "10:00:01"
           start_scenario eq_refl eq_refl).
Defined.

(** ** Sequences of operations *)

Lemma fold_appended_history (es : list CursorHistoryEntry) (p : CursorHistoryProperties) :
  (length (history_list p) <= 100)%nat ->
  history_list (fold_left (fun q e => appended e q) es p) =
  drop (length (history_list p ++ es) - 100) (history_list p ++ es).
Proof.
  revert p. induction es as [|e es IH]; intros p Hlen.
  - cbn. rewrite app_nil_r.
    replace (length (history_list p) - 100)%nat with 0%nat by lia. reflexivity.
  - cbn [fold_left]. rewrite IH.
    + rewrite appended_history. destruct (100 <=? _) eqn:E.
      * apply Z.leb_le in E.
        destruct (history_list p) as [|x l] eqn:Hl; [cbn in E; lia|].
        cbn [drop]. rewrite <- app_assoc. cbn [app].
        rewrite !length_app. cbn [length] in *. rewrite !length_app. cbn [length].
        replace (S (length l + S (length es)) - 100)%nat
          with (1 + (length l + S (length es) - 100))%nat by lia.
        by rewrite <- drop_drop.
      * rewrite <- app_assoc. reflexivity.
    + pose proof (appended_length e p) as Hl.
      destruct (100 <=? _) eqn:E; [|apply Z.leb_gt in E]; lia.
Qed.

Lemma record_all_run (es : list (Vec * string)) (w : Bpy) :
  Scene_cursor_history_props w = true ->
  exists w',
    record_all es w = Ok (tt, w') /\
    props_of (context_scene w) w' =
      fold_left (fun q e => appended e q) (map (fun x => mkEntry (fst x) (snd x)) es)
        (props_of (context_scene w) w) /\
    cursor_location (scene_of (context_scene w) w')
      = cursor_location (scene_of (context_scene w) w) /\
    (forall s, s ≠ context_scene w -> scene_of s w' = scene_of s w).
Proof.
  revert w. induction es as [|[pos now] es IH]; intros w F.
  - exists w. repeat split; reflexivity.
  - unfold record_all. cbn [for_each fst snd]. unfold bind at 1.
    rewrite add_cursor_history_entry_run by exact F.
    set (w1 := set_props (context_scene w)
                 (appended (mkEntry pos now) (props_of (context_scene w) w)) w).
    destruct (IH w1 F) as (w' & Hrun & Hp & Hcur & Hs).
    change (context_scene w1) with (context_scene w) in Hp, Hcur, Hs.
    exists w'. split; [exact Hrun|]. split; [|split].
    + rewrite Hp. unfold w1. by rewrite props_of_set_props_eq.
    + rewrite Hcur. unfold w1. by rewrite cursor_of_set_props.
    + intros s Hne. rewrite Hs by exact Hne. unfold w1. by rewrite scene_of_set_props_ne.
Qed.

(** X9: the list is a first-in first-out window.  After any sequence of
    calls of [add_cursor_history_entry] on a store that held at most 100
    entries, the store holds the newest 100 of the old entries followed by
    the new ones, in their order, and so at most 100; when the sequence is
    not empty, [active_index] selects the newest entry. *)
Theorem appends_keep_newest_hundred (es : list (Vec * string)) (w : Bpy) :
  Scene_cursor_history_props w = true ->
  Z.of_nat (length (history_list (active_props w))) <= 100 ->
  exists w',
    record_all es w = Ok (tt, w') /\
    history_list (props_of (context_scene w) w') =
      drop (length (history_list (active_props w)
                    ++ map (fun x => mkEntry (fst x) (snd x)) es) - 100)
           (history_list (active_props w) ++ map (fun x => mkEntry (fst x) (snd x)) es) /\
    Z.of_nat (length (history_list (props_of (context_scene w) w'))) <= 100 /\
    (es <> [] ->
     active_index (props_of (context_scene w) w') =
       Z.of_nat (length (history_list (props_of (context_scene w) w'))) - 1).
Proof.
  intros F Hlen. unfold active_props in *.
  destruct (record_all_run es w F) as (w' & Hrun & Hp & _).
  exists w'. split; [exact Hrun|]. rewrite Hp.
  split; [apply fold_appended_history; lia|]. split.
  - rewrite fold_appended_history by lia. rewrite length_drop. lia.
  - intros Hne. destruct es as [|x es _] using rev_ind; [done|].
    rewrite map_app, fold_left_app. cbn [map fold_left]. apply appended_active.
Qed.

Lemma appends_keep_newest_hundred_witness :
  (Scene_cursor_history_props three_entries = true /\
   Z.of_nat (length (history_list (active_props three_entries))) <= 100) /\
  exists w',
    record_all [(vec_of_Z 4 0 0, "10:00:12"); (vec_of_Z 5 0 0, "10:00:15")] three_entries
      = Ok (tt, w') /\
    history_list (props_of "Scene" w') =
      [mkEntry (vec_of_Z 1 0 0) "10:00:00"; mkEntry (vec_of_Z 2 0 0) "10:00:05";
       mkEntry (vec_of_Z 3 0 0) "10:00:09"; mkEntry (vec_of_Z 4 0 0) "10:00:12";
       mkEntry (vec_of_Z 5 0 0) "10:00:15"].
Proof.
  assert (Z.of_nat (length (history_list (active_props three_entries))) <= 100) as Hlen
    by (change (3 <= 100); lia).
  split; [split; [reflexivity | exact Hlen]|].
  destruct (appends_keep_newest_hundred
              [(vec_of_Z 4 0 0, "10:00:12"); (vec_of_Z 5 0 0, "10:00:15")]
              three_entries eq_refl Hlen) as (w' & Hrun & Hlist & _).
  exists w'. split; [exact Hrun | exact Hlist].
Defined.

Lemma remove_at_last (l : list CursorHistoryEntry) e :
  remove_at (Z.of_nat (length l)) (l ++ [e]) = l.
Proof.
  rewrite remove_at_in_range by (rewrite length_app; cbn; lia).
  rewrite Nat2Z.id, take_app_length.
  rewrite drop_ge by (rewrite length_app; cbn; lia).
  apply app_nil_r.
Qed.

(** X10: delete undoes an append.  After [add_cursor_history_entry] the new
    entry is the selected one, so [CURSOR_OT_delete_entry.execute] removes
    exactly it: the entries are the old ones again (less the oldest one if
    the append had to drop it), [active_index] selects the last of them
    (-1 if there is none), and recording flag and last position are the
    old ones. *)
Theorem delete_undoes_append (now : string) (position : Vec) (w : Bpy) :
  Scene_cursor_history_props w = true ->
  exists w1 w2,
    add_cursor_history_entry now position w = Ok (tt, w1) /\
    CURSOR_OT_delete_entry_execute w1 = Ok (FINISHED, w2) /\
    history_list (props_of (context_scene w) w2) =
      (if 100 <=? Z.of_nat (length (history_list (active_props w)))
       then drop 1 (history_list (active_props w))
       else history_list (active_props w)) /\
    active_index (props_of (context_scene w) w2) =
      Z.of_nat (length (history_list (props_of (context_scene w) w2))) - 1 /\
    is_recording (props_of (context_scene w) w2) = is_recording (active_props w) /\
    last_cursor_pos (props_of (context_scene w) w2) = last_cursor_pos (active_props w).
Proof.
  intros F. unfold active_props.
  set (p1 := appended (mkEntry position now) (props_of (context_scene w) w)).
  set (w1 := set_props (context_scene w) p1 w).
  assert (Scene_cursor_history_props w1 = true) as F1 by exact F.
  assert (props_of (context_scene w1) w1 = p1) as Hp1 by apply props_of_set_props_eq.
  set (l0 := if 100 <=? Z.of_nat (length (history_list (props_of (context_scene w) w)))
             then drop 1 (history_list (props_of (context_scene w) w))
             else history_list (props_of (context_scene w) w)).
  assert (history_list p1 = l0 ++ [mkEntry position now]) as Hl1 by apply appended_history.
  assert (active_index p1 = Z.of_nat (length l0)) as Ha1.
  { unfold p1. rewrite appended_active. fold p1. rewrite Hl1, length_app. cbn. lia. }
  assert (selection_guard p1 = true) as G.
  { unfold selection_guard. rewrite Ha1, Hl1, length_app. cbn.
    apply andb_true_iff. split; [apply Z.ltb_lt | apply Z.leb_le]; lia. }
  exists w1, (set_props (context_scene w1) (deleted p1) w1).
  split; [by apply add_cursor_history_entry_run|].
  split; [rewrite <- Hp1 at 1; apply delete_entry_run_guarded; [exact F1 | by rewrite Hp1]|].
  change (context_scene w1) with (context_scene w). rewrite props_of_set_props_eq.
  unfold deleted. cbn [history_list active_index is_recording last_cursor_pos].
  rewrite Ha1, Hl1, remove_at_last.
  replace (Z.of_nat (length l0) <=? Z.of_nat (length l0)) with true
    by (symmetry; apply Z.leb_le; lia).
  repeat split.
Qed.

Lemma delete_undoes_append_witness :
  Scene_cursor_history_props three_entries = true /\
  exists w1 w2,
    add_cursor_history_entry "10:00:12" (vec_of_Z 4 0 0) three_entries = Ok (tt, w1) /\
    CURSOR_OT_delete_entry_execute w1 = Ok (FINISHED, w2) /\
    history_list (props_of "Scene" w2) = history_list (props_of "Scene" three_entries) /\
    active_index (props_of "Scene" w2) = 2.
Proof.
  split; [reflexivity|].
  destruct (delete_undoes_append "10:00:12" (vec_of_Z 4 0 0) three_entries eq_refl)
    as (w1 & w2 & Hadd & Hdel & Hlist & Hactive & _).
  change (context_scene three_entries) with "Scene" in Hlist, Hactive.
  exists w1, w2. split; [exact Hadd|]. split; [exact Hdel|]. split; [exact Hlist|].
  rewrite Hactive, Hlist. reflexivity.
Defined.

Lemma deleted_valid (p : CursorHistoryProperties) (n : nat) :
  length (history_list p) = S n ->
  0 <= active_index p < Z.of_nat (S n) ->
  length (history_list (deleted p)) = n /\
  (n = O -> active_index (deleted p) = -1) /\
  (n <> O -> 0 <= active_index (deleted p) < Z.of_nat n).
Proof.
  intros Hlen Hi.
  assert (Z.of_nat (length (remove_at (active_index p) (history_list p))) = Z.of_nat n)
    as Hlen' by (rewrite length_remove_at by (rewrite Hlen; exact Hi); lia).
  unfold deleted. cbn [history_list active_index]. rewrite Hlen'.
  split; [lia|].
  destruct (Z.of_nat n <=? active_index p) eqn:E;
    [apply Z.leb_le in E | apply Z.leb_gt in E]; split; lia.
Qed.

Lemma repeat_delete_run (n : nat) (w : Bpy) :
  Scene_cursor_history_props w = true ->
  length (history_list (props_of (context_scene w) w)) = S n ->
  0 <= active_index (props_of (context_scene w) w) < Z.of_nat (S n) ->
  exists w',
    repeat_operator (S n) CURSOR_OT_delete_entry_execute w = Ok (tt, w') /\
    history_list (props_of (context_scene w) w') = [] /\
    active_index (props_of (context_scene w) w') = -1 /\
    is_recording (props_of (context_scene w) w')
      = is_recording (props_of (context_scene w) w) /\
    last_cursor_pos (props_of (context_scene w) w')
      = last_cursor_pos (props_of (context_scene w) w) /\
    CURSOR_OT_delete_entry_execute w' = Ok (FINISHED, w').
Proof.
  revert w. induction n as [|n IH]; intros w F Hlen Hi.
  all: assert (selection_guard (props_of (context_scene w) w) = true) as G
    by (unfold selection_guard; rewrite Hlen; apply andb_true_iff;
        split; [apply Z.ltb_lt | apply Z.leb_le]; lia).
  all: destruct (deleted_valid _ _ Hlen Hi) as (Hlen' & Hzero & Hpos).
  all: set (w1 := set_props (context_scene w) (deleted (props_of (context_scene w) w)) w).
  all: assert (props_of (context_scene w) w1 = deleted (props_of (context_scene w) w))
    as Hp1 by apply props_of_set_props_eq.
  all: cbn [repeat_operator]; unfold bind at 1;
    rewrite delete_entry_run_guarded by assumption; fold w1.
  - exists w1. split; [reflexivity|]. rewrite Hp1.
    assert (history_list (deleted (props_of (context_scene w) w)) = []) as Hnil
      by (destruct (history_list (deleted _)); [done | discriminate Hlen']).
    split; [exact Hnil|]. split; [by apply Hzero|].
    split; [reflexivity|]. split; [reflexivity|].
    apply delete_entry_run_skip; [exact F|].
    change (context_scene w1) with (context_scene w). rewrite Hp1.
    unfold selection_guard. by rewrite Hnil.
  - destruct (IH w1) as (w' & Hrun & Hnil & Hact & Hrec & Hlast & Hnoop).
    + exact F.
    + change (context_scene w1) with (context_scene w). by rewrite Hp1.
    + change (context_scene w1) with (context_scene w). rewrite Hp1. by apply Hpos.
    + change (context_scene w1) with (context_scene w) in *.
      exists w'. split; [exact Hrun|]. split; [exact Hnil|]. split; [exact Hact|].
      rewrite Hrec, Hlast, Hp1. repeat split. exact Hnoop.
Qed.

(** X11: delete can be repeated until the list is empty.  From a store of
    [n] entries, [n] at least 1, with a valid selection, [n] calls of
    [CURSOR_OT_delete_entry.execute] in a row all succeed and leave no
    entry, with [active_index] -1 and the recording flag and last position
    unchanged; one more call changes nothing. *)
Theorem repeated_delete_empties_store (w : Bpy) :
  Scene_cursor_history_props w = true ->
  0 <= active_index (active_props w) < Z.of_nat (length (history_list (active_props w))) ->
  exists w',
    repeat_operator (length (history_list (active_props w)))
      CURSOR_OT_delete_entry_execute w = Ok (tt, w') /\
    history_list (props_of (context_scene w) w') = [] /\
    active_index (props_of (context_scene w) w') = -1 /\
    is_recording (props_of (context_scene w) w') = is_recording (active_props w) /\
    last_cursor_pos (props_of (context_scene w) w') = last_cursor_pos (active_props w) /\
    CURSOR_OT_delete_entry_execute w' = Ok (FINISHED, w').
Proof.
  intros F Hi. unfold active_props in *.
  destruct (length (history_list (props_of (context_scene w) w))) as [|n] eqn:Hlen;
    [cbn in Hi; lia|].
  by apply repeat_delete_run.
Qed.

Lemma repeated_delete_empties_store_witness :
  (Scene_cursor_history_props three_entries = true /\
   0 <= active_index (active_props three_entries)
     < Z.of_nat (length (history_list (active_props three_entries)))) /\
  exists w',
    repeat_operator 3 CURSOR_OT_delete_entry_execute three_entries = Ok (tt, w') /\
    history_list (props_of "Scene" w') = [] /\
    active_index (props_of "Scene" w') = -1.
Proof.
  assert (0 <= active_index (active_props three_entries)
            < Z.of_nat (length (history_list (active_props three_entries)))) as Hi
    by (change (0 <= 1 < 3); lia).
  split; [split; [reflexivity | exact Hi]|].
  destruct (repeated_delete_empties_store three_entries eq_refl Hi)
    as (w' & Hrun & Hlist & Hactive & _).
  exists w'. split; [exact Hrun|]. split; [exact Hlist | exact Hactive].
Defined.

Lemma list_remove_first_appended (h : Handler) (hs : list Handler) :
  h ∉ hs -> list_remove_first h (hs ++ [h]) = hs.
Proof.
  induction hs as [|y hs IH]; intros Hnot; cbn.
  - by rewrite decide_True.
  - rewrite decide_False by (intros ->; apply Hnot; left).
    rewrite IH; [done|]. intros Hin. apply Hnot. by right.
Qed.

(** X12: loading and then unloading leaves the host as it was found.  On a
    host where no class of the add-on is registered and the update callback
    is not installed, [register] succeeds and installs the callback at the
    end of the handler list, and [unregister] then succeeds and restores
    the handler list, with no class registered and the property not
    defined; the scenes and the active scene are never touched. *)
Theorem register_then_unregister_restores_host (w : Bpy) :
  registered_classes w = [] ->
  cursor_position_handler_fn ∉ depsgraph_update_post w ->
  exists w1,
    register w = Ok (tt, w1) /\
    depsgraph_update_post w1 = depsgraph_update_post w ++ [cursor_position_handler_fn] /\
    Scene_cursor_history_props w1 = true /\
    scenes w1 = scenes w /\ context_scene w1 = context_scene w /\
    unregister w1 =
      Ok (tt, mkBpy [] false (depsgraph_update_post w) (scenes w) (context_scene w)).
Proof.
  destruct w as [cls fl hs scs ctx]; cbn [registered_classes Scene_cursor_history_props
    depsgraph_update_post scenes context_scene].
  intros -> Hnot.
  exists (mkBpy (rev classes) true (hs ++ [cursor_position_handler_fn]) scs ctx).
  split.
  - unfold register. unfold bind at 1. rewrite for_each_register_classes.
    unfold bind, define_Scene_cursor_history_props, get_depsgraph_update_post; cbn.
    by rewrite decide_False.
  - repeat split.
    unfold unregister, bind, get_depsgraph_update_post;
      cbn [depsgraph_update_post].
    rewrite decide_True by (apply elem_of_app; right; left).
    unfold set_depsgraph_update_post, del_Scene_cursor_history_props.
    cbn [registered_classes Scene_cursor_history_props depsgraph_update_post scenes
         context_scene].
    rewrite for_each_unregister_classes.
    by rewrite list_remove_first_appended.
Qed.

Lemma register_then_unregister_restores_host_witness :
  (registered_classes fresh_host = [] /\
   cursor_position_handler_fn ∉ depsgraph_update_post fresh_host) /\
  exists w1,
    register fresh_host = Ok (tt, w1) /\
    depsgraph_update_post w1 = [cursor_position_handler_fn] /\
    unregister w1 = Ok (tt, fresh_host).
Proof.
  assert (cursor_position_handler_fn ∉ depsgraph_update_post fresh_host) as Hnot
    by (cbn; apply not_elem_of_nil).
  split; [split; [reflexivity | exact Hnot]|].
  destruct (register_then_unregister_restores_host fresh_host eq_refl Hnot)
    as (w1 & Hreg & Hhs & _ & _ & _ & Hunreg).
  exists w1. split; [exact Hreg|]. split; [exact Hhs | exact Hunreg].
Defined.

(** ** The panel and the commands behind its buttons *)

Lemma panel_draw_operators format_3f (w : Bpy) :
  Scene_cursor_history_props w = true ->
  exists ui,
    CURSOR_PT_history_panel_draw format_3f w = Ok (ui, w) /\
    flat_map widget_operators ui =
      (if is_recording (props_of (context_scene w) w)
       then ["cursor.stop_recording"] else ["cursor.start_recording"])
      ++ (if 0 <? Z.of_nat (length (history_list (props_of (context_scene w) w)))
          then ["cursor.jump_to_position"; "cursor.delete_entry"; "cursor.clear_history"]
          else []).
Proof.
  intros F. unfold CURSOR_PT_history_panel_draw.
  unfold bind, ret, bpy_context_scene, get_cursor_history_props, get_is_recording,
    get_cursor_location, history_len, history_nonempty, read_props, bind, ret.
  rewrite F. eexists. split; [reflexivity|].
  cbn [flat_map widget_operators app].
  destruct (is_recording _), (0 <? _); reflexivity.
Qed.

(** X13: what the panel draws and what its buttons do.  With the add-on
    loaded and a selection that is valid whenever the list is not empty,
    [CURSOR_PT_history_panel.draw] succeeds without changing the host
    state, and the operator buttons it draws are, in order: the toggle,
    which is Stop when recording is on and Start when it is off, and then,
    for a non-empty list only, Go To, Delete and Clear All.  Each of these
    [bl_idname]s names an operator whose [execute], run in that state,
    returns [FINISHED]: the toggle flips the recording flag, Go To moves
    the cursor to the selected entry, Delete removes one entry and Clear
    All removes them all. *)
Theorem panel_buttons_act (format_3f : Q -> string) (now : string) (w : Bpy) :
  Scene_cursor_history_props w = true ->
  (history_list (active_props w) <> [] ->
   0 <= active_index (active_props w) < Z.of_nat (length (history_list (active_props w)))) ->
  exists ui,
    CURSOR_PT_history_panel_draw format_3f w = Ok (ui, w) /\
    flat_map widget_operators ui =
      (if is_recording (active_props w)
       then ["cursor.stop_recording"] else ["cursor.start_recording"])
      ++ match history_list (active_props w) with
         | [] => []
         | _ :: _ =>
             ["cursor.jump_to_position"; "cursor.delete_entry"; "cursor.clear_history"]
         end /\
    forall idname, idname ∈ flat_map widget_operators ui ->
      exists op w',
        operator_of_idname now idname = Some op /\
        op w = Ok (FINISHED, w') /\
        (idname = "cursor.start_recording" ->
         is_recording (active_props w) = false /\
         is_recording (props_of (context_scene w) w') = true) /\
        (idname = "cursor.stop_recording" ->
         is_recording (active_props w) = true /\
         is_recording (props_of (context_scene w) w') = false) /\
        (idname = "cursor.jump_to_position" ->
         exists e,
           history_list (active_props w) !! Z.to_nat (active_index (active_props w)) = Some e /\
           cursor_location (scene_of (context_scene w) w') = location e) /\
        (idname = "cursor.delete_entry" ->
         Z.of_nat (length (history_list (props_of (context_scene w) w')))
           = Z.of_nat (length (history_list (active_props w))) - 1) /\
        (idname = "cursor.clear_history" ->
         history_list (active_props w) <> [] /\
         history_list (props_of (context_scene w) w') = []).
Proof.
  intros F Hsel. unfold active_props in *.
  destruct (panel_draw_operators format_3f w F) as (ui & Hdraw & Hops).
  exists ui. split; [exact Hdraw|]. rewrite Hops. clear ui Hdraw Hops.
  split; [by destruct (history_list (props_of (context_scene w) w))|].
  intros idname Hin. apply elem_of_app in Hin as [Hin | Hin].
  - destruct (is_recording (props_of (context_scene w) w)) eqn:R;
      apply list_elem_of_singleton in Hin; subst idname.
    + exists CURSOR_OT_stop_recording_execute. eexists.
      split; [reflexivity|]. split; [by apply stop_recording_run|].
      rewrite props_of_set_props_eq. repeat split; done.
    + exists (CURSOR_OT_start_recording_execute now). eexists.
      split; [reflexivity|]. split; [by apply start_recording_run|].
      rewrite props_of_set_props_eq. repeat split; done.
  - destruct (0 <? _) eqn:Hpos; [|by apply elem_of_nil in Hin].
    apply Z.ltb_lt in Hpos.
    assert (history_list (props_of (context_scene w) w) <> []) as Hne
      by (destruct (history_list _); [cbn in Hpos; lia | done]).
    specialize (Hsel Hne).
    assert (selection_guard (props_of (context_scene w) w) = true) as G.
    { unfold selection_guard. apply andb_true_iff.
      split; [apply Z.ltb_lt | apply Z.leb_le]; lia. }
    destruct (lookup_lt_is_Some_2 (history_list (props_of (context_scene w) w))
                (Z.to_nat (active_index (props_of (context_scene w) w)))) as [e He];
      [lia|].
    apply elem_of_cons in Hin as [-> | Hin];
      [|apply elem_of_cons in Hin as [-> | Hin];
        [|apply list_elem_of_singleton in Hin; subst idname]].
    + exists CURSOR_OT_jump_to_position_execute. eexists.
      split; [reflexivity|]. split; [apply (jump_to_position_run_guarded w e); [done|lia|done]|].
      repeat split; try done.
      intros _. exists e. split; [exact He|]. by rewrite scene_of_set_scene_eq.
    + exists CURSOR_OT_delete_entry_execute. eexists.
      split; [reflexivity|]. split; [by apply delete_entry_run_guarded|].
      rewrite props_of_set_props_eq. repeat split; try done.
      intros _. by apply length_remove_at.
    + exists CURSOR_OT_clear_history_execute. eexists.
      split; [reflexivity|]. split; [by apply clear_history_run|].
      rewrite props_of_set_props_eq. repeat split; done.
Qed.

Lemma panel_buttons_act_witness :
  (Scene_cursor_history_props three_entries = true /\
   (history_list (active_props three_entries) <> [] ->
    0 <= active_index (active_props three_entries)
      < Z.of_nat (length (history_list (active_props three_entries))))) /\
  exists ui,
    CURSOR_PT_history_panel_draw (fun _ => "0.000") three_entries = Ok (ui, three_entries) /\
    flat_map widget_operators ui =
      ["cursor.start_recording"; "cursor.jump_to_position"; "cursor.delete_entry";
       "cursor.clear_history"] /\
    exists w',
      CURSOR_OT_delete_entry_execute three_entries = Ok (FINISHED, w') /\
      Z.of_nat (length (history_list (props_of "Scene" w'))) = 2.
Proof.
  assert (history_list (active_props three_entries) <> [] ->
          0 <= active_index (active_props three_entries)
            < Z.of_nat (length (history_list (active_props three_entries)))) as Hsel
    by (intros _; change (0 <= 1 < 3); lia).
  split; [split; [reflexivity | exact Hsel]|].
  destruct (panel_buttons_act (fun _ => "0.000") "10:00:12" three_entries eq_refl Hsel)
    as (ui & Hdraw & _ & Hact).
  exists ui. split; [exact Hdraw|].
  assert (Ok (ui, three_entries)
          = CURSOR_PT_history_panel_draw (fun _ => "0.000") three_entries) as Hui
    by (symmetry; exact Hdraw).
  vm_compute in Hui. injection Hui as ->.
  split; [reflexivity|].
  destruct (Hact "cursor.delete_entry") as (op & w' & Hop & Hrun & _ & _ & _ & Hdel & _).
  { cbn. do 2 right. left. }
  injection Hop as <-.
  exists w'. split; [exact Hrun|]. exact (Hdel eq_refl).
Defined.

(** ** The tolerance of the change detector *)





